(** * Document Handler API: the file-type detector and the acceptance verdict

    A shallow embedding of [src/app.py]: [detect_file_type],
    [save_temp_file] and [process_document], together with the parts of the
    Python standard library they call ([base64.b64decode],
    [bytes.decode('utf-8', errors='ignore')], [str.split], [str.startswith],
    dict literals).

    Conventions.
    - A Python [str] is the list of its code points; a [bytes] object is the
      list of its bytes.  Both are lists of [Z].
    - Python exceptions are values of type [exn]; code that can raise lives in
      the monad [M], which threads the process state [World] (standard output,
      clock, random source, file system) and an error.
    - [print] appends a structured [log_line] to the standard output of the
      world: one constructor per [print] call of the source, holding the
      values its f-string formats. *)

From Stdlib Require Import List ZArith String Ascii Bool Lia PrimFloat DecimalString.
Import ListNotations.
Local Open Scope Z_scope.

(* ===================================================================== *)
(** ** Python values *)
(* ===================================================================== *)

Module Py.

Definition str := list Z.
Definition bytes := list Z.

(** A string literal of the source: the code points of its characters. *)
Definition lit (s : string) : str :=
  map (fun c => Z.of_nat (nat_of_ascii c)) (list_ascii_of_string s).

(** One-character literals used as separators. *)
Definition chr (c : ascii) : Z := Z.of_nat (nat_of_ascii c).

Fixpoint eqb (a b : list Z) : bool :=
  match a, b with
  | [], [] => true
  | x :: a', y :: b' => (x =? y) && eqb a' b'
  | _, _ => false
  end.

(** [s.startswith(prefix)], for [str] and for [bytes]. *)
Fixpoint startswith (s prefix : list Z) {struct prefix} : bool :=
  match prefix with
  | [] => true
  | p :: prefix' =>
      match s with
      | [] => false
      | c :: s' => (c =? p) && startswith s' prefix'
      end
  end.

(** [sep in s] for a one-character [sep]. *)
Definition contains (sep : Z) (s : str) : bool := existsb (Z.eqb sep) s.

(** [s.split(sep)] for a one-character [sep]: never the empty list. *)
Fixpoint split (sep : Z) (s : str) : list str :=
  match s with
  | [] => [[]]
  | c :: s' =>
      if c =? sep then [] :: split sep s'
      else match split sep s' with
           | w :: ws => (c :: w) :: ws
           | [] => [[c]]
           end
  end.

(** [s.split(sep, maxsplit)] for a one-character [sep]. *)
Fixpoint split_max (sep : Z) (maxsplit : nat) (s : str) {struct s} : list str :=
  match s with
  | [] => [[]]
  | c :: s' =>
      match maxsplit with
      | O => [s]
      | S n =>
          if c =? sep then [] :: split_max sep n s'
          else match split_max sep maxsplit s' with
               | w :: ws => (c :: w) :: ws
               | [] => [[c]]
               end
      end
  end.

(** [str(n)] for an [int]. *)
Definition str_of_int (n : Z) : str := lit (NilZero.string_of_int (Z.to_int n)).

(** *** Dict literals

    A dict keeps its keys in insertion order; storing under a key that is
    already present replaces the value and leaves the key where it was.  A
    dict display [{k1: v1, ..., kn: vn}] stores its items from left to
    right. *)

Definition dict (V : Type) := list (list Z * V).

Fixpoint dict_set {V} (d : dict V) (k : list Z) (v : V) : dict V :=
  match d with
  | [] => [(k, v)]
  | (k', v') :: d' =>
      if eqb k' k then (k', v) :: d' else (k', v') :: dict_set d' k v
  end.

Definition dict_display {V} (items : list (list Z * V)) : dict V :=
  fold_left (fun d kv => dict_set d (fst kv) (snd kv)) items [].

Fixpoint dict_get {V} (d : dict V) (k : list Z) : option V :=
  match d with
  | [] => None
  | (k', v) :: d' => if eqb k' k then Some v else dict_get d' k
  end.

(** [k in d]. *)
Definition dict_mem {V} (d : dict V) (k : list Z) : bool :=
  match dict_get d k with Some _ => true | None => false end.

(** [d.items()], in iteration order. *)
Definition dict_items {V} (d : dict V) : list (list Z * V) := d.

(** *** Exceptions *)

(** The reasons [binascii.a2b_base64] gives for [binascii.Error]. *)
Inductive b64_fault : Type :=
| LeadingPadding
| ExcessDataAfterPadding
| OnlyBase64Allowed
| DiscontinuousPadding
| InvalidLength (data_chars : Z)
| IncorrectPadding.

(** The built-in exceptions the program can meet; all derive from
    [Exception]. *)
Inductive py_error : Type :=
| NonAsciiValueError          (* ValueError: b64decode of a str with a non-ASCII character *)
| BinasciiError (why : b64_fault)
| UnpackError                 (* ValueError: not enough values to unpack *)
| IndexError
| KeyError
| OSError.

(** *** base64.b64decode

    [b64decode(s, validate)] encodes a [str] argument to ASCII and hands it to
    [binascii.a2b_base64(s, strict_mode=validate)] (CPython 3.11).  The loop
    of [a2b_base64] is transcribed with its variables [quad_pos],
    [leftchar], [pads] and [padding_started]; [written] counts the bytes
    stored so far. *)

Definition BASE64_PAD : Z := 61.

(** [table_a2b_base64]: the 6-bit value of an alphabet character. *)
Definition table_a2b_base64 (c : Z) : option Z :=
  if (65 <=? c) && (c <=? 90) then Some (c - 65)
  else if (97 <=? c) && (c <=? 122) then Some (c - 71)
  else if (48 <=? c) && (c <=? 57) then Some (c + 4)
  else if c =? 43 then Some 62
  else if c =? 47 then Some 63
  else None.

(** Storing into an [unsigned char] keeps the low eight bits. *)
Definition uchar (x : Z) : Z := Z.land x 255.

Definition emit (b : Z) (r : b64_fault + bytes) : b64_fault + bytes :=
  match r with
  | inl e => inl e
  | inr out => inr (b :: out)
  end.

Fixpoint a2b_base64_loop (strict_mode : bool) (ascii_data : bytes)
    (quad_pos leftchar pads : Z) (padding_started : bool) (written : Z)
    {struct ascii_data} : b64_fault + bytes :=
  match ascii_data with
  | [] =>
      if quad_pos =? 0 then inr []
      else if quad_pos =? 1 then inl (InvalidLength (written / 3 * 4 + 1))
      else inl IncorrectPadding
  | this_ch :: rest =>
      if this_ch =? BASE64_PAD then
        if 2 <=? quad_pos then
          if 4 <=? quad_pos + (pads + 1) then
            if strict_mode && negb (Nat.eqb (List.length rest) 0)
            then inl ExcessDataAfterPadding
            else inr []
          else a2b_base64_loop strict_mode rest quad_pos leftchar (pads + 1) true written
        else a2b_base64_loop strict_mode rest quad_pos leftchar pads true written
      else
        match table_a2b_base64 this_ch with
        | None =>
            if strict_mode then inl OnlyBase64Allowed
            else a2b_base64_loop strict_mode rest quad_pos leftchar pads padding_started written
        | Some v =>
            if strict_mode && padding_started then inl DiscontinuousPadding
            else
              match quad_pos with
              | 0 => a2b_base64_loop strict_mode rest 1 v 0 padding_started written
              | 1 => emit (uchar (Z.lor (Z.shiftl leftchar 2) (Z.shiftr v 4)))
                       (a2b_base64_loop strict_mode rest 2 (Z.land v 15) 0
                          padding_started (written + 1))
              | 2 => emit (uchar (Z.lor (Z.shiftl leftchar 4) (Z.shiftr v 2)))
                       (a2b_base64_loop strict_mode rest 3 (Z.land v 3) 0
                          padding_started (written + 1))
              | _ => emit (uchar (Z.lor (Z.shiftl leftchar 6) v))
                       (a2b_base64_loop strict_mode rest 0 0 0
                          padding_started (written + 1))
              end
        end
  end.

Definition a2b_base64 (data : bytes) (strict_mode : bool) : b64_fault + bytes :=
  match data with
  | first :: _ =>
      if strict_mode && (first =? BASE64_PAD) then inl LeadingPadding
      else a2b_base64_loop strict_mode data 0 0 0 false 0
  | [] => a2b_base64_loop strict_mode data 0 0 0 false 0
  end.

(** [s.encode('ascii')]. *)
Definition encode_ascii (s : str) : py_error + bytes :=
  if forallb (fun c => (0 <=? c) && (c <? 128)) s then inr s
  else inl NonAsciiValueError.

Definition b64decode (s : str) (validate : bool) : py_error + bytes :=
  match encode_ascii s with
  | inl e => inl e
  | inr data =>
      match a2b_base64 data validate with
      | inl why => inl (BinasciiError why)
      | inr out => inr out
      end
  end.

(** *** bytes.decode('utf-8', errors='ignore')

    CPython's decoder: a malformed sequence is reported with the number of
    bytes it covers (one for an invalid start byte, one to three for an
    invalid continuation byte, everything left for a truncated sequence) and
    the [ignore] handler resumes right after them. *)

Definition is_continuation_byte (ch : Z) : bool := (128 <=? ch) && (ch <? 192).

Fixpoint utf8_decode_ignore (s : bytes) : str :=
  match s with
  | [] => []
  | ch :: s1 =>
      if ch <? 128 then ch :: utf8_decode_ignore s1
      else if ch <? 224 then
        if ch <? 194 then utf8_decode_ignore s1
        else
          match s1 with
          | [] => []
          | ch2 :: s2 =>
              if is_continuation_byte ch2
              then (Z.shiftl (Z.land ch 31) 6 + Z.land ch2 63) :: utf8_decode_ignore s2
              else utf8_decode_ignore s1
          end
      else if ch <? 240 then
        match s1 with
        | [] => []
        | ch2 :: s2 =>
            if negb (is_continuation_byte ch2)
               || (if ch2 <? 160 then ch =? 224 else ch =? 237)
            then utf8_decode_ignore s1
            else
              match s2 with
              | [] => []
              | ch3 :: s3 =>
                  if is_continuation_byte ch3
                  then (Z.shiftl (Z.land ch 15) 12 + Z.shiftl (Z.land ch2 63) 6
                        + Z.land ch3 63) :: utf8_decode_ignore s3
                  else utf8_decode_ignore s2
              end
        end
      else if ch <? 245 then
        match s1 with
        | [] => []
        | ch2 :: s2 =>
            if negb (is_continuation_byte ch2)
               || (if ch2 <? 144 then ch =? 240 else ch =? 244)
            then utf8_decode_ignore s1
            else
              match s2 with
              | [] => []
              | ch3 :: s3 =>
                  if negb (is_continuation_byte ch3) then utf8_decode_ignore s2
                  else
                    match s3 with
                    | [] => []
                    | ch4 :: s4 =>
                        if is_continuation_byte ch4
                        then (Z.shiftl (Z.land ch 7) 18 + Z.shiftl (Z.land ch2 63) 12
                              + Z.shiftl (Z.land ch3 63) 6 + Z.land ch4 63)
                               :: utf8_decode_ignore s4
                        else utf8_decode_ignore s3
                    end
              end
        end
      else utf8_decode_ignore s1
  end.

(** *** os.path.join (POSIX) for two components *)

Definition path_join (a b : str) : str :=
  if startswith b (lit "/") then b
  else if Nat.eqb (List.length a) 0 then b
  else if last a 0 =? chr "/" then a ++ b
  else a ++ lit "/" ++ b.

End Py.

(* ===================================================================== *)
(** ** Effects: exceptions, the process state, the monad *)
(* ===================================================================== *)

(** [Union[str, int]]: the identifiers of a request. *)
Inductive ident : Type :=
| IdStr (s : Py.str)
| IdInt (n : Z).

(** [str(x)], as an f-string formats an identifier. *)
Definition str_of_ident (x : ident) : Py.str :=
  match x with
  | IdStr s => s
  | IdInt n => Py.str_of_int n
  end.

(** Exceptions.  The [detail] of an [HTTPException] is kept structured: each
    constructor stands for one f-string of the source and holds the exception
    it formats. *)
Inductive exn : Type :=
| Builtin (e : Py.py_error)
| HTTPException (status_code : Z) (detail : http_detail)
with http_detail : Type :=
| InvalidBase64Data (e : exn)     (* f"Invalid base64 data: {str(e)}" *)
| EmptyFileData                   (* "Empty file data" *)
| InternalServerError (e : exn).  (* f"Internal server error: {str(e)}" *)

(** One constructor per [print] call of the source. *)
Inductive log_line : Type :=
(* detect_file_type *)
| LogAnalyzing (size : nat)
| LogFromDataUrl (mime_type file_extension : Py.str)
| LogFromSignature (mime_type ext : Py.str)
| LogXml
| LogJson
| LogHtml
| LogPhp
| LogScript
| LogGenericBinary
| LogDetectError (e : exn)
(* save_temp_file *)
| LogFileSaved (temp_file_path : Py.str)
| LogFileSize (size : nat)
(* process_document *)
| LogProcessing
| LogRecordId (record_id : ident)
| LogDocumentId (document_id : ident)
| LogInvalidBase64 (e : exn)
| LogEmptyFile
| LogValidationOk
| LogAccepted (reason : Py.str)
| LogRejected (reason : Py.str)
| LogSending
| LogStatus (status : Py.str)
| LogConfidenceScore (confidence_score : float)
| LogReason (reason : Py.str)
| LogFileType (mime_type : Py.str)
| LogFileExtension (file_extension : Py.str)
| LogResponseFileSize (size : nat)
| LogSavedTo (temp_file_path : Py.str)
| LogInternalError (e : exn).

(** The state of the process and of its environment. *)
Record World : Type := mkWorld {
  stdout : list log_line;
  now : Py.str;                        (* datetime.now().strftime("%Y%m%d_%H%M%S") *)
  uuid4 : nat -> Py.str;               (* str(uuid.uuid4()) at the n-th draw *)
  draws : nat;                         (* uuids drawn so far *)
  cwd : Py.str;                        (* os.getcwd() *)
  dirs : list Py.str;                  (* directories created *)
  files : list (Py.str * Py.bytes);    (* files written, latest first *)
  refused : Py.str -> bool             (* paths the operating system will not
                                          create or open for writing *)
}.

Definition M (A : Type) : Type := World -> (exn + A) * World.

Definition ret {A} (a : A) : M A := fun w => (inr a, w).

Definition bind {A B} (m : M A) (f : A -> M B) : M B :=
  fun w =>
    match m w with
    | (inr a, w') => f a w'
    | (inl e, w') => (inl e, w')
    end.

Definition raise {A} (e : exn) : M A := fun w => (inl e, w).

(** [try: body  except Exception as e: handler e].  What [body] did to the
    world before raising stays done. *)
Definition try_except {A} (body : M A) (handler : exn -> M A) : M A :=
  fun w =>
    match body w with
    | (inr a, w') => (inr a, w')
    | (inl e, w') => handler e w'
    end.

Declare Scope monad_scope.
Delimit Scope monad_scope with monad.
Notation "x <- m ;; k" := (bind m (fun x => k))
  (at level 61, m at next level, right associativity) : monad_scope.
Notation "' pat <- m ;; k" := (bind m (fun x => match x with pat => k end))
  (at level 61, pat pattern, m at next level, right associativity) : monad_scope.
Notation "m ;; k" := (bind m (fun _ => k))
  (at level 61, right associativity) : monad_scope.
Local Open Scope monad_scope.

(** A library call that raises a built-in exception or returns. *)
Definition lift {A} (r : Py.py_error + A) : M A :=
  match r with
  | inl e => raise (Builtin e)
  | inr a => ret a
  end.

Definition print (l : log_line) : M unit :=
  fun w => (inr tt,
            mkWorld (stdout w ++ [l]) (now w) (uuid4 w) (draws w) (cwd w)
                    (dirs w) (files w) (refused w)).

(** [xs[i]]: IndexError out of range. *)
Definition index {A} (xs : list A) (i : nat) : M A :=
  match nth_error xs i with
  | Some x => ret x
  | None => raise (Builtin Py.IndexError)
  end.

(** [a, b = xs]: ValueError unless [xs] has two items. *)
Definition unpack2 {A} (xs : list A) : M (A * A) :=
  match xs with
  | [a; b] => ret (a, b)
  | _ => raise (Builtin Py.UnpackError)
  end.

(** A block that may [return] from the enclosing function: [Some r] when it
    returned [r], [None] when control falls out of its end. *)
Definition or_else {R} (block : M (option R)) (rest : M R) : M R :=
  r <- block ;;
  match r with
  | Some x => ret x
  | None => rest
  end.

(** *** The environment calls of [save_temp_file] *)

Definition strftime_now : M Py.str := fun w => (inr (now w), w).

Definition uuid4_str : M Py.str :=
  fun w => (inr (uuid4 w (draws w)),
            mkWorld (stdout w) (now w) (uuid4 w) (S (draws w)) (cwd w)
                    (dirs w) (files w) (refused w)).

Definition getcwd : M Py.str := fun w => (inr (cwd w), w).

(** [os.makedirs(path, exist_ok=True)]. *)
Definition makedirs (path : Py.str) : M unit :=
  fun w =>
    if refused w path then (inl (Builtin Py.OSError), w)
    else (inr tt,
          mkWorld (stdout w) (now w) (uuid4 w) (draws w) (cwd w)
                  (path :: dirs w) (files w) (refused w)).

(** [with open(path, 'wb') as f: f.write(data)], seen from outside as one
    step: the operating system either refuses the path or stores the whole
    file.  The class of the exception a refusal raises in Python ([OSError],
    one of its subclasses, [ValueError] for a path with a NUL character) and
    a write that fails midway are not told apart: every refusal is an
    [OSError] that leaves the files as they were.  Which paths are refused
    is for the world to say, through [refused]; it knows no directory
    structure of its own. *)
Definition write_file (path : Py.str) (data : Py.bytes) : M unit :=
  fun w =>
    if refused w path then (inl (Builtin Py.OSError), w)
    else (inr tt,
          mkWorld (stdout w) (now w) (uuid4 w) (draws w) (cwd w)
                  (dirs w) ((path, data) :: files w) (refused w)).

(* ===================================================================== *)
(** ** The program *)
(* ===================================================================== *)

Import Py.

Module DocumentRequest.
Record t : Type := make {
  record_id : ident;
  document_id : ident;
  base64_data : str
}.
End DocumentRequest.

Module DocumentResponse.
Record t : Type := make {
  record_id : ident;
  document_id : ident;
  status : str;
  confidence_score : float;
  reason : str
}.
End DocumentResponse.

(** *** detect_file_type *)

(** The dict display of lines 58-70.  The last three keys are the three
    [PK] keys written with hexadecimal escapes. *)
Definition file_signatures : dict (str * str) :=
  dict_display
    [ ([0x89] ++ lit "PNG" ++ [0x0d; 0x0a; 0x1a; 0x0a], (lit "image/png", lit "png"));
      ([0xff; 0xd8; 0xff], (lit "image/jpeg", lit "jpg"));
      (lit "GIF87a", (lit "image/gif", lit "gif"));
      (lit "GIF89a", (lit "image/gif", lit "gif"));
      (lit "%PDF", (lit "application/pdf", lit "pdf"));
      (lit "PK" ++ [0x03; 0x04], (lit "application/zip", lit "zip"));
      (lit "PK" ++ [0x05; 0x06], (lit "application/zip", lit "zip"));
      (lit "PK" ++ [0x07; 0x08], (lit "application/zip", lit "zip"));
      ([0x50; 0x4b; 0x03; 0x04],
       (lit "application/vnd.openxmlformats-officedocument.wordprocessingml.document",
        lit "docx"));
      ([0x50; 0x4b; 0x05; 0x06],
       (lit "application/vnd.openxmlformats-officedocument.wordprocessingml.document",
        lit "docx"));
      ([0x50; 0x4b; 0x07; 0x08],
       (lit "application/vnd.openxmlformats-officedocument.wordprocessingml.document",
        lit "docx")) ].

Definition generic_binary : str * str := (lit "application/octet-stream", lit "bin").

(** Lines 47-55: the data-URL header. *)
Definition detect_from_data_url (base64_data : str) : M (option (str * str)) :=
  if startswith base64_data (lit "data:") then
    try_except
      (' (header, data) <- unpack2 (split_max (chr ",") 1 base64_data) ;;
       part <- index (split (chr ":") header) 1 ;;
       mime_type <- index (split (chr ";") part) 0 ;;
       let file_extension :=
         if contains (chr "/") mime_type
         then last (split (chr "/") mime_type) []
         else lit "bin" in
       print (LogFromDataUrl mime_type file_extension) ;;
       ret (Some (mime_type, file_extension)))
      (fun _ => ret None)
  else ret None.

(** Lines 72-75: the loop over [file_signatures.items()]. *)
Fixpoint detect_from_signature (items : list (bytes * (str * str)))
    (decoded_data : bytes) : M (option (str * str)) :=
  match items with
  | [] => ret None
  | (signature, (mime_type, ext)) :: items' =>
      if startswith decoded_data signature then
        print (LogFromSignature mime_type ext) ;;
        ret (Some (mime_type, ext))
      else detect_from_signature items' decoded_data
  end.

(** Lines 78-98: the text prefixes. *)
Definition detect_from_text (decoded_data : bytes) : M (option (str * str)) :=
  if (4 <=? List.length decoded_data)%nat then
    try_except
      (let text_start := utf8_decode_ignore (firstn 100 decoded_data) in
       if startswith text_start (lit "<?xml") then
         print LogXml ;; ret (Some (lit "application/xml", lit "xml"))
       else if startswith text_start (lit "{") || startswith text_start (lit "[") then
         print LogJson ;; ret (Some (lit "application/json", lit "json"))
       else if startswith text_start (lit "<html")
               || startswith text_start (lit "<!DOCTYPE") then
         print LogHtml ;; ret (Some (lit "text/html", lit "html"))
       else if startswith text_start (lit "<?php") then
         print LogPhp ;; ret (Some (lit "application/x-httpd-php", lit "php"))
       else if startswith text_start (lit "#!/") then
         print LogScript ;; ret (Some (lit "text/plain", lit "txt"))
       else ret None)
      (fun _ => ret None)
  else ret None.

Definition detect_file_type (base64_data : str) : M (str * str) :=
  try_except
    (decoded_data <- lift (b64decode base64_data false) ;;
     print (LogAnalyzing (List.length decoded_data)) ;;
     or_else (detect_from_data_url base64_data)
       (or_else (detect_from_signature (dict_items file_signatures) decoded_data)
          (or_else (detect_from_text decoded_data)
             (print LogGenericBinary ;;
              ret generic_binary))))
    (fun e =>
       print (LogDetectError e) ;;
       ret generic_binary).

(** *** save_temp_file *)

Definition save_temp_file (decoded_data : bytes) (record_id document_id : ident)
    (file_extension : str) : M str :=
  timestamp <- strftime_now ;;
  u <- uuid4_str ;;
  let unique_id := firstn 8 u in
  let filename :=
    lit "record_" ++ str_of_ident record_id ++ lit "_doc_" ++ str_of_ident document_id
    ++ lit "_" ++ timestamp ++ lit "_" ++ unique_id ++ lit "." ++ file_extension in
  d <- getcwd ;;
  let temp_dir := path_join d (lit "temp_files") in
  makedirs temp_dir ;;
  let temp_file_path := path_join temp_dir filename in
  write_file temp_file_path decoded_data ;;
  print (LogFileSaved temp_file_path) ;;
  print (LogFileSize (List.length decoded_data)) ;;
  ret temp_file_path.

(** *** process_document *)

(** The dict display of lines 176-192.  A decimal literal denotes the nearest
    binary64 value, in Python as here. *)
#[local] Set Warnings "-inexact-float".

Definition accepted_types : dict (float * str) :=
  dict_display
    [ (lit "application/pdf", (0.95%float, lit "PDF document - Accepted"));
      (lit "image/jpeg", (0.85%float, lit "JPEG image - Accepted"));
      (lit "image/png", (0.85%float, lit "PNG image - Accepted"));
      (lit "image/gif", (0.80%float, lit "GIF image - Accepted"));
      (lit "application/vnd.openxmlformats-officedocument.wordprocessingml.document",
       (0.90%float, lit "DOCX document - Accepted"));
      (lit "application/msword", (0.85%float, lit "DOC document - Accepted"));
      (lit "application/vnd.openxmlformats-officedocument.spreadsheetml.sheet",
       (0.90%float, lit "XLSX spreadsheet - Accepted"));
      (lit "application/vnd.ms-excel", (0.85%float, lit "XLS spreadsheet - Accepted"));
      (lit "application/vnd.openxmlformats-officedocument.presentationml.presentation",
       (0.90%float, lit "PPTX presentation - Accepted"));
      (lit "application/vnd.ms-powerpoint", (0.85%float, lit "PPT presentation - Accepted"));
      (lit "text/plain", (0.70%float, lit "Text file - Accepted"));
      (lit "application/json", (0.75%float, lit "JSON file - Accepted"));
      (lit "application/xml", (0.75%float, lit "XML file - Accepted"));
      (lit "text/html", (0.70%float, lit "HTML file - Accepted"));
      (lit "text/csv", (0.75%float, lit "CSV file - Accepted")) ].

(** Lines 170-201 of [process_document]: the verdict
    [(status, confidence_score, reason)] for a detected mime type. *)
Definition classify (mime_type : str) : M (str * float * str) :=
  let confidence_score := 0.0%float in
  let status := lit "rejected" in
  let reason := lit "" in
  if dict_mem accepted_types mime_type then
    ' (confidence_score, reason) <-
        match dict_get accepted_types mime_type with
        | Some v => ret v
        | None => raise (Builtin KeyError)
        end ;;
    let status := lit "accepted" in
    print (LogAccepted reason) ;;
    ret (status, confidence_score, reason)
  else
    let confidence_score := 0.3%float in
    let reason := lit "File type '" ++ mime_type ++ lit "' not in accepted list - Rejected" in
    print (LogRejected reason) ;;
    ret (status, confidence_score, reason).

Definition process_document (request : DocumentRequest.t) : M DocumentResponse.t :=
  try_except
    (print LogProcessing ;;
     print (LogRecordId (DocumentRequest.record_id request)) ;;
     print (LogDocumentId (DocumentRequest.document_id request)) ;;
     let base64_data := DocumentRequest.base64_data request in
     base64_data <-
       (if startswith base64_data (lit "data:")
        then index (split_max (chr ",") 1 base64_data) 1
        else ret base64_data) ;;
     decoded_data <-
       try_except (lift (b64decode base64_data true))
         (fun e =>
            print (LogInvalidBase64 e) ;;
            raise (HTTPException 400 (InvalidBase64Data e))) ;;
     (if (List.length decoded_data =? 0)%nat then
        print LogEmptyFile ;;
        raise (HTTPException 400 EmptyFileData)
      else ret tt) ;;
     print LogValidationOk ;;
     ' (mime_type, file_extension) <- detect_file_type base64_data ;;
     ' (status, confidence_score, reason) <- classify mime_type ;;
     temp_file_path <-
       save_temp_file decoded_data (DocumentRequest.record_id request)
         (DocumentRequest.document_id request) file_extension ;;
     let response :=
       DocumentResponse.make (DocumentRequest.record_id request)
         (DocumentRequest.document_id request) status confidence_score reason in
     print LogSending ;;
     print (LogStatus status) ;;
     print (LogConfidenceScore confidence_score) ;;
     print (LogReason reason) ;;
     print (LogFileType mime_type) ;;
     print (LogFileExtension file_extension) ;;
     print (LogResponseFileSize (List.length decoded_data)) ;;
     print (LogSavedTo temp_file_path) ;;
     ret response)
    (fun e =>
       match e with
       | HTTPException _ _ => raise e
       | _ =>
           print (LogInternalError e) ;;
           raise (HTTPException 500 (InternalServerError e))
       end).

(* ===================================================================== *)
(** ** Vocabulary of the statements *)
(* ===================================================================== *)

(** What a computation returns or raises, started in world [w]. *)
Definition result {A} (m : M A) (w : World) : exn + A := fst (m w).

(** The world after printing the lines [ls]: nothing but the standard output
    has changed. *)
Definition say (ls : list log_line) (w : World) : World :=
  mkWorld (stdout w ++ ls) (now w) (uuid4 w) (draws w) (cwd w)
          (dirs w) (files w) (refused w).

(** A computation that reads nothing of the world and only prints: its
    outcome and the lines it prints are the same in every world. *)
Definition only_prints {A} (m : M A) : Prop :=
  exists r ls, forall w, m w = (r, say ls w).

(** Some signature of the table is a prefix of the bytes. *)
Definition matches_signature (decoded_data : bytes) : bool :=
  existsb (fun item => startswith decoded_data (fst item)) (dict_items file_signatures).

(** The three ZIP signatures. *)
Definition zip_signatures : list bytes :=
  [ [0x50; 0x4b; 0x03; 0x04]; [0x50; 0x4b; 0x05; 0x06]; [0x50; 0x4b; 0x07; 0x08] ].

Definition docx_type : str * str :=
  (lit "application/vnd.openxmlformats-officedocument.wordprocessingml.document", lit "docx").

(** The text rules as the specification lists them: an ordered table of
    prefixes and results, of which the first row with a matching prefix
    wins. *)
Definition text_rules : list (list str * (str * str)) :=
  [ ([lit "<?xml"], (lit "application/xml", lit "xml"));
    ([lit "{"; lit "["], (lit "application/json", lit "json"));
    ([lit "<html"; lit "<!DOCTYPE"], (lit "text/html", lit "html"));
    ([lit "<?php"], (lit "application/x-httpd-php", lit "php"));
    ([lit "#!/"], (lit "text/plain", lit "txt")) ].

Fixpoint first_match (rules : list (list str * (str * str))) (text : str)
    (default : str * str) : str * str :=
  match rules with
  | [] => default
  | (prefixes, verdict) :: rules' =>
      if existsb (startswith text) prefixes then verdict
      else first_match rules' text default
  end.

(** The base64 payload of a request: what follows the first comma of a data
    URL, the whole string otherwise; none for a data URL without a comma. *)
Definition request_payload (base64_data : str) : option str :=
  if startswith base64_data (lit "data:")
  then nth_error (split_max (chr ",") 1 base64_data) 1
  else Some base64_data.

(** The results the signature table, the text rules and the fallback can
    give. *)
Definition detectable_types : list (str * str) :=
  map snd (dict_items file_signatures) ++ map snd text_rules ++ [generic_binary].

(** A world to run examples in. *)
Definition world0 : World :=
  mkWorld [] (lit "20240101_120000")
          (fun _ => lit "123e4567-e89b-12d3-a456-426614174000") 0
          (lit "/srv/app") [] [] (fun _ => false).

(** A world whose operating system refuses every write. *)
Definition read_only_world : World :=
  mkWorld [] (lit "20240101_120000")
          (fun _ => lit "123e4567-e89b-12d3-a456-426614174000") 0
          (lit "/srv/app") [] [] (fun _ => true).

(* ===================================================================== *)
(** ** cleanup_temp_file *)
(* ===================================================================== *)

(** The handler of [DELETE /cleanup/{file_path}] (lines 242-255).  Its
    exceptions carry details of their own, and the one line it prints is kept
    on a console of its own, beside the world.  What the operating system
    answers to [os.path.exists] and [os.remove] is a parameter of the
    handler. *)
Module Cleanup.

(** [s.rfind(c)] for a one-character [c]: the highest index, or -1. *)
Fixpoint rfind (c : Z) (s : str) : Z :=
  match s with
  | [] => -1
  | x :: s' =>
      let r := rfind c s' in
      if 0 <=? r then r + 1 else if x =? c then 0 else -1
  end.

(** [s.rstrip(c)] for a one-character [c]. *)
Fixpoint rstrip (c : Z) (s : str) : str :=
  match s with
  | [] => []
  | x :: s' =>
      match rstrip c s' with
      | [] => if x =? c then [] else [x]
      | r => x :: r
      end
  end.

(** [os.path.dirname] (POSIX): everything up to the last slash, without the
    trailing slashes unless there is nothing else. *)
Definition dirname (p : str) : str :=
  let i := rfind (chr "/") p + 1 in
  let head := firstn (Z.to_nat i) p in
  if negb (Nat.eqb (List.length head) 0) && negb (forallb (Z.eqb (chr "/")) head)
  then rstrip (chr "/") head
  else head.

Inductive error : Type :=
| OS (e : py_error)
| HTTP (status_code : Z) (detail : detail)
with detail : Type :=
| NotFoundOrInvalidPath           (* "File not found or invalid path" *)
| ErrorDeletingFile (e : error).  (* f"Error deleting file: {str(e)}" *)

(** The dict the handler returns. *)
Record deleted : Type := mkDeleted {
  message : str;
  file_path : str
}.

Record State : Type := mkState {
  world : World;
  console : list str   (* the paths of the "Deleted file" lines printed *)
}.

Section OperatingSystem.

(** [os.path.exists(path)]: never raises. *)
Variable os_path_exists : str -> World -> bool.

(** [os.remove(path)]: removes the file or raises an [OSError]. *)
Variable os_remove : str -> World -> (py_error + unit) * World.

Definition cleanup_temp_file (file_path : str) (s : State)
  : (error + deleted) * State :=
  let attempt : (error + deleted) * State :=
    if os_path_exists file_path (world s)
       && Py.eqb (dirname file_path) (path_join (cwd (world s)) (lit "temp_files"))
    then
      match os_remove file_path (world s) with
      | (inl e, w') => (inl (OS e), mkState w' (console s))
      | (inr _, w') =>
          (inr (mkDeleted (lit "File deleted successfully") file_path),
           mkState w' (console s ++ [file_path]))
      end
    else (inl (HTTP 404 NotFoundOrInvalidPath), s) in
  match attempt with
  | (inl e, s') => (inl (HTTP 500 (ErrorDeletingFile e)), s')
  | (inr r, s') => (inr r, s')
  end.

End OperatingSystem.

(** An operating system that knows the files and directories of the world
    and nothing else. *)
Definition exists_in_world (path : str) (w : World) : bool :=
  existsb (fun f => Py.eqb (fst f) path) (files w) || existsb (Py.eqb path) (dirs w).

Definition remove_in_world (path : str) (w : World) : (py_error + unit) * World :=
  if existsb (fun f => Py.eqb (fst f) path) (files w) then
    (inr tt,
     mkWorld (stdout w) (now w) (uuid4 w) (draws w) (cwd w) (dirs w)
             (filter (fun f => negb (Py.eqb (fst f) path)) (files w)) (refused w))
  else (inl OSError, w).

End Cleanup.

(* ===================================================================== *)
(** ** More vocabulary *)
(* ===================================================================== *)

(** The file name [save_temp_file] builds in world [w]. *)
Definition temp_file_name (record_id document_id : ident) (file_extension : str)
    (w : World) : str :=
  lit "record_" ++ str_of_ident record_id ++ lit "_doc_" ++ str_of_ident document_id
  ++ lit "_" ++ now w ++ lit "_" ++ firstn 8 (uuid4 w (draws w)) ++ lit "."
  ++ file_extension.

(** The verdicts a response of the service can carry: the nine table rows
    whose mime type the detector can produce, and the two rejections. *)
Definition service_verdicts : list (str * float * str) :=
  [ (lit "accepted", 0.85%float, lit "PNG image - Accepted");
    (lit "accepted", 0.85%float, lit "JPEG image - Accepted");
    (lit "accepted", 0.80%float, lit "GIF image - Accepted");
    (lit "accepted", 0.95%float, lit "PDF document - Accepted");
    (lit "accepted", 0.90%float, lit "DOCX document - Accepted");
    (lit "accepted", 0.75%float, lit "XML file - Accepted");
    (lit "accepted", 0.75%float, lit "JSON file - Accepted");
    (lit "accepted", 0.70%float, lit "HTML file - Accepted");
    (lit "accepted", 0.70%float, lit "Text file - Accepted");
    (lit "rejected", 0.3%float,
     lit "File type 'application/x-httpd-php' not in accepted list - Rejected");
    (lit "rejected", 0.3%float,
     lit "File type 'application/octet-stream' not in accepted list - Rejected") ].

(** The data-URL header of a string and the mime type written in it, as
    lines 49-50 cut them out. *)
Definition data_url_mime (base64_data : str) : str :=
  let header := hd [] (split_max (chr ",") 1 base64_data) in
  hd [] (split (chr ";") (nth 1 (split (chr ":") header) [])).

Definition extension_of_mime (mime_type : str) : str :=
  if contains (chr "/") mime_type then last (split (chr "/") mime_type) []
  else lit "bin".

(** The header of a data URL decides the result: the string starts with
    [data:], decodes as a whole as lenient base64, and holds a comma. *)
Definition header_decides (base64_data : str) : bool :=
  startswith base64_data (lit "data:")
  && match b64decode base64_data false with inr _ => true | inl _ => false end
  && contains (chr ",") base64_data.



(* ===================================================================== *)
(** ** Basic facts *)
(* ===================================================================== *)

Lemma eqb_eq (a b : list Z) : Py.eqb a b = true <-> a = b.
Proof.
  revert b; induction a as [|x a IH]; intros [|y b]; simpl; split; intro H;
    try reflexivity; try discriminate.
  - apply andb_true_iff in H as [Hx Hab].
    apply Z.eqb_eq in Hx. apply IH in Hab. congruence.
  - injection H as -> ->. rewrite Z.eqb_refl. simpl. now apply IH.
Qed.

Lemma eqb_neq (a b : list Z) : Py.eqb a b = false <-> a <> b.
Proof.
  split.
  - intros H E. apply eqb_eq in E. congruence.
  - intros H. destruct (Py.eqb a b) eqn:E; [|reflexivity].
    apply eqb_eq in E. contradiction.
Qed.

Lemma dict_get_Some_In {V} (d : dict V) (k : list Z) (v : V) :
  dict_get d k = Some v -> In (k, v) d.
Proof.
  induction d as [|[k' v'] d IH]; simpl; [discriminate|].
  destruct (Py.eqb k' k) eqn:E.
  - intros [= ->]. apply eqb_eq in E. subst. now left.
  - intros H. right. now apply IH.
Qed.

Lemma dict_get_None_notin {V} (d : dict V) (k : list Z) :
  dict_get d k = None <-> ~ In k (map fst d).
Proof.
  induction d as [|[k' v'] d IH]; simpl.
  - split; [intros _ []|reflexivity].
  - destruct (Py.eqb k' k) eqn:E.
    + apply eqb_eq in E. split; [discriminate|]. intros H. exfalso. apply H. now left.
    + apply eqb_neq in E. rewrite IH. split.
      * intros H [H1|H1]; [contradiction|]. now apply H.
      * intros H H1. apply H. now right.
Qed.

Lemma dict_mem_In {V} (d : dict V) (k : list Z) :
  dict_mem d k = true <-> In k (map fst d).
Proof.
  unfold dict_mem. destruct (dict_get d k) eqn:E.
  - split; [intros _|reflexivity].
    apply dict_get_Some_In in E. now apply (in_map fst) in E.
  - split; [discriminate|]. intros H. now apply dict_get_None_notin in E.
Qed.

(** The acceptance table has the fifteen keys of the source, each once. *)
Lemma accepted_types_keys :
  map fst (dict_items accepted_types) =
  [ lit "application/pdf"; lit "image/jpeg"; lit "image/png"; lit "image/gif";
    lit "application/vnd.openxmlformats-officedocument.wordprocessingml.document";
    lit "application/msword";
    lit "application/vnd.openxmlformats-officedocument.spreadsheetml.sheet";
    lit "application/vnd.ms-excel";
    lit "application/vnd.openxmlformats-officedocument.presentationml.presentation";
    lit "application/vnd.ms-powerpoint";
    lit "text/plain"; lit "application/json"; lit "application/xml";
    lit "text/html"; lit "text/csv" ].
Proof. vm_compute. reflexivity. Qed.

(** The signature table as Python builds it: the three hexadecimal [PK] keys
    are the three [PK] keys already present, so their values replace the
    [zip] ones and eight items remain. *)
Lemma file_signatures_items :
  dict_items file_signatures =
  [ ([0x89; 0x50; 0x4e; 0x47; 0x0d; 0x0a; 0x1a; 0x0a], (lit "image/png", lit "png"));
    ([0xff; 0xd8; 0xff], (lit "image/jpeg", lit "jpg"));
    (lit "GIF87a", (lit "image/gif", lit "gif"));
    (lit "GIF89a", (lit "image/gif", lit "gif"));
    (lit "%PDF", (lit "application/pdf", lit "pdf"));
    ([0x50; 0x4b; 0x03; 0x04], docx_type);
    ([0x50; 0x4b; 0x05; 0x06], docx_type);
    ([0x50; 0x4b; 0x07; 0x08], docx_type) ].
Proof. vm_compute. reflexivity. Qed.

(* ===================================================================== *)
(** ** The monad: running and framing *)
(* ===================================================================== *)

Lemma say_nil (w : World) : say [] w = w.
Proof. destruct w; unfold say; simpl. now rewrite app_nil_r. Qed.

Lemma say_say (l1 l2 : list log_line) (w : World) :
  say l2 (say l1 w) = say (l1 ++ l2) w.
Proof. unfold say; simpl. now rewrite app_assoc. Qed.

Lemma print_run (l : log_line) (w : World) : print l w = (inr tt, say [l] w).
Proof. reflexivity. Qed.

Lemma bind_run_ok {A B} (m : M A) (f : A -> M B) (w w' : World) (a : A) :
  m w = (inr a, w') -> bind m f w = f a w'.
Proof. intros H. unfold bind. now rewrite H. Qed.

Lemma bind_run_raise {A B} (m : M A) (f : A -> M B) (w w' : World) (e : exn) :
  m w = (inl e, w') -> bind m f w = (inl e, w').
Proof. intros H. unfold bind. now rewrite H. Qed.

Lemma only_prints_ret {A} (a : A) : only_prints (ret a).
Proof. exists (inr a), []. intros w. now rewrite say_nil. Qed.

Lemma only_prints_raise {A} (e : exn) : only_prints (@raise A e).
Proof. exists (inl e), []. intros w. now rewrite say_nil. Qed.

Lemma only_prints_lift {A} (r : py_error + A) : only_prints (lift r).
Proof. destruct r; [apply only_prints_raise|apply only_prints_ret]. Qed.

Lemma only_prints_index {A} (xs : list A) (i : nat) : only_prints (index xs i).
Proof.
  unfold index. destruct (nth_error xs i);
    [apply only_prints_ret|apply only_prints_raise].
Qed.

Lemma only_prints_unpack2 {A} (xs : list A) : only_prints (unpack2 xs).
Proof.
  unfold unpack2. destruct xs as [|a [|b [|c xs]]];
    try apply only_prints_raise. apply only_prints_ret.
Qed.

Section Sequencing.
Context {A B : Type}.

Lemma only_prints_bind (m : M A) (f : A -> M B) :
  only_prints m -> (forall a, only_prints (f a)) -> only_prints (bind m f).
Proof.
  intros (r & l1 & Hm) Hf. destruct r as [e|a].
  - exists (inl e), l1. intros w. unfold bind. now rewrite Hm.
  - destruct (Hf a) as (r2 & l2 & H2).
    exists r2, (l1 ++ l2). intros w. unfold bind.
    now rewrite Hm, H2, say_say.
Qed.

Lemma only_prints_try_except (body : M A) (handler : exn -> M A) :
  only_prints body -> (forall e, only_prints (handler e)) ->
  only_prints (try_except body handler).
Proof.
  intros (r & l1 & Hm) Hh. destruct r as [e|a].
  - destruct (Hh e) as (r2 & l2 & H2).
    exists r2, (l1 ++ l2). intros w. unfold try_except.
    now rewrite Hm, H2, say_say.
  - exists (inr a), l1. intros w. unfold try_except. now rewrite Hm.
Qed.
End Sequencing.

Lemma only_prints_print (l : log_line) : only_prints (print l).
Proof. exists (inr tt), [l]. intros w. reflexivity. Qed.

Lemma only_prints_or_else {R} (block : M (option R)) (rest : M R) :
  only_prints block -> only_prints rest -> only_prints (or_else block rest).
Proof.
  intros Hb Hr. unfold or_else. apply only_prints_bind; [exact Hb|].
  intros [x|]; [apply only_prints_ret|exact Hr].
Qed.

Ltac prints :=
  repeat first
    [ apply only_prints_ret | apply only_prints_raise | apply only_prints_lift
    | apply only_prints_index | apply only_prints_unpack2 | apply only_prints_print
    | apply only_prints_or_else
    | apply only_prints_try_except; [|intros ?]
    | apply only_prints_bind; [|intros ?]
    | match goal with
      | |- only_prints (if ?c then _ else _) => destruct c
      | |- only_prints (match ?x with (_, _) => _ end) => destruct x
      | |- only_prints (match ?x with Some _ => _ | None => _ end) => destruct x
      | |- only_prints (let _ := _ in _) => cbv zeta
      end ].

Lemma detect_from_data_url_prints (base64_data : str) :
  only_prints (detect_from_data_url base64_data).
Proof. unfold detect_from_data_url. prints. Qed.

Lemma detect_from_signature_prints items (decoded_data : bytes) :
  only_prints (detect_from_signature items decoded_data).
Proof.
  induction items as [|[signature [mime_type ext]] items IH]; simpl.
  - prints.
  - destruct (startswith decoded_data signature); [prints|exact IH].
Qed.

Lemma detect_from_text_prints (decoded_data : bytes) :
  only_prints (detect_from_text decoded_data).
Proof. unfold detect_from_text. prints. Qed.

Lemma detect_file_type_prints (base64_data : str) :
  only_prints (detect_file_type base64_data).
Proof.
  unfold detect_file_type.
  apply only_prints_try_except; [|intros e; prints].
  apply only_prints_bind; [prints|intros decoded_data].
  apply only_prints_bind; [prints|intros _].
  apply only_prints_or_else; [apply detect_from_data_url_prints|].
  apply only_prints_or_else; [apply detect_from_signature_prints|].
  apply only_prints_or_else; [apply detect_from_text_prints|].
  prints.
Qed.

Lemma classify_prints (mime_type : str) : only_prints (classify mime_type).
Proof. unfold classify. prints. Qed.

(* ===================================================================== *)
(** ** The stages of detect_file_type *)
(* ===================================================================== *)

Lemma startswith_split (s prefix : list Z) :
  startswith s prefix = true -> exists rest, s = prefix ++ rest.
Proof.
  revert s; induction prefix as [|p prefix IH]; intros s H.
  - now exists s.
  - destruct s as [|c s]; simpl in H; [discriminate|].
    apply andb_true_iff in H as [Hc Hs]. apply Z.eqb_eq in Hc. subst c.
    destruct (IH _ Hs) as [rest ->]. now exists rest.
Qed.

Lemma detect_from_data_url_skip (base64_data : str) (w : World) :
  startswith base64_data (lit "data:") = false ->
  detect_from_data_url base64_data w = (inr None, w).
Proof. intros H. unfold detect_from_data_url. now rewrite H. Qed.

(** The loop returns at the first item whose signature is a prefix. *)
Lemma detect_from_signature_run items (decoded_data : bytes) (w : World) :
  detect_from_signature items decoded_data w =
  match find (fun item => startswith decoded_data (fst item)) items with
  | Some (_, (mime_type, ext)) =>
      (inr (Some (mime_type, ext)), say [LogFromSignature mime_type ext] w)
  | None => (inr None, w)
  end.
Proof.
  induction items as [|[signature [mime_type ext]] items IH]; simpl; [reflexivity|].
  destruct (startswith decoded_data signature); [reflexivity|exact IH].
Qed.

Lemma detect_from_signature_miss (decoded_data : bytes) (w : World) :
  matches_signature decoded_data = false ->
  detect_from_signature (dict_items file_signatures) decoded_data w = (inr None, w).
Proof.
  unfold matches_signature. intros H. rewrite detect_from_signature_run.
  destruct (find _ _) as [[sig v]|] eqn:F; [|reflexivity].
  apply find_some in F as [Hin Hsw].
  assert (existsb (fun item => startswith decoded_data (fst item))
            (dict_items file_signatures) = true) as E
    by (apply existsb_exists; eauto).
  congruence.
Qed.

(** The text stage and the final fallback: the first matching row of
    [text_rules] on the leniently decoded first hundred bytes, provided there
    are four bytes. *)
Lemma detect_from_text_run (decoded_data : bytes) (w : World) :
  result (or_else (detect_from_text decoded_data)
            (print LogGenericBinary ;; ret generic_binary)) w =
  inr (if (4 <=? List.length decoded_data)%nat
       then first_match text_rules (utf8_decode_ignore (firstn 100 decoded_data))
              generic_binary
       else generic_binary).
Proof.
  unfold result, or_else, detect_from_text, try_except, bind.
  destruct (4 <=? List.length decoded_data)%nat; [|reflexivity].
  cbv zeta. unfold text_rules, first_match, existsb.
  rewrite !orb_false_r.
  repeat match goal with
         | |- context [if ?c then _ else _] => destruct c; try reflexivity
         end.
Qed.

(** An input that decodes and has no data-URL prefix: the first signature of
    the table that is a prefix decides, else the text stage. *)
Lemma detect_file_type_decoded (base64_data : str) (decoded_data : bytes) (w : World) :
  startswith base64_data (lit "data:") = false ->
  b64decode base64_data false = inr decoded_data ->
  result (detect_file_type base64_data) w =
  match find (fun item => startswith decoded_data (fst item)) (dict_items file_signatures) with
  | Some (_, v) => inr v
  | None =>
      inr (if (4 <=? List.length decoded_data)%nat
           then first_match text_rules (utf8_decode_ignore (firstn 100 decoded_data))
                  generic_binary
           else generic_binary)
  end.
Proof.
  intros Hdata Hdec.
  unfold result, detect_file_type, try_except.
  unfold bind at 1. unfold lift. rewrite Hdec. cbn [ret].
  unfold bind at 1. cbn [print].
  unfold or_else at 1. rewrite (bind_run_ok _ _ _ _ _ (detect_from_data_url_skip _ _ Hdata)).
  unfold or_else at 1.
  unfold bind at 1. rewrite detect_from_signature_run.
  destruct (find _ _) as [[sig [mime_type ext]]|]; [reflexivity|].
  match goal with
  | |- context [or_else ?b ?r ?w'] =>
      pose proof (detect_from_text_run decoded_data w') as T;
      unfold result in T; destruct (or_else b r w') as [[e|v] w'']
  end; cbn [fst] in T |- *; [discriminate|exact T].
Qed.

(* ===================================================================== *)
(** ** The acceptance verdict *)
(* ===================================================================== *)

(** What [classify] returns, read off the table. *)
Lemma classify_run (mime_type : str) (w : World) :
  result (classify mime_type) w =
  match dict_get accepted_types mime_type with
  | Some (confidence_score, reason) => inr (lit "accepted", confidence_score, reason)
  | None =>
      inr (lit "rejected", 0.3%float,
           lit "File type '" ++ mime_type ++ lit "' not in accepted list - Rejected")
  end.
Proof.
  unfold result, classify, dict_mem.
  destruct (dict_get accepted_types mime_type) as [[c r]|]; reflexivity.
Qed.

(** C1.  For every mime string [m], [classify] answers [accepted] exactly
    when [m] is one of the keys of the acceptance table; then the confidence
    score and the reason are the table's entry for [m]; otherwise the answer
    is [rejected], 0.3 and the reason naming [m].  The table maps
    [application/pdf] to (0.95, "PDF document - Accepted") and has no entry
    for [application/x-httpd-php]. *)
Theorem classify_acceptance_table (w : World) :
  (forall m : str,
      exists status confidence_score reason,
        result (classify m) w = inr (status, confidence_score, reason)
        /\ (status = lit "accepted" <-> In m (map fst (dict_items accepted_types)))
        /\ (forall entry, dict_get accepted_types m = Some entry ->
                          status = lit "accepted" /\ (confidence_score, reason) = entry)
        /\ (dict_get accepted_types m = None ->
            status = lit "rejected" /\ confidence_score = 0.3%float
            /\ reason = lit "File type '" ++ m ++ lit "' not in accepted list - Rejected"))
  /\ result (classify (lit "application/pdf")) w
     = inr (lit "accepted", 0.95%float, lit "PDF document - Accepted")
  /\ result (classify (lit "application/x-httpd-php")) w
     = inr (lit "rejected", 0.3%float,
            lit "File type 'application/x-httpd-php' not in accepted list - Rejected").
Proof.
  split; [|split; rewrite classify_run; reflexivity].
  intros m. rewrite classify_run.
  destruct (dict_get accepted_types m) as [[c r]|] eqn:G.
  - exists (lit "accepted"), c, r.
    split; [reflexivity|]. split; [|split].
    + split; [intros _|reflexivity].
      apply dict_get_Some_In in G. now apply (in_map fst) in G.
    + intros entry [= <-]. now split.
    + discriminate.
  - eexists _, _, _. split; [reflexivity|]. split; [|split].
    + split.
      * intros H. vm_compute in H. discriminate.
      * intros H. now apply dict_get_None_notin in G.
    + discriminate.
    + intros _. repeat split.
Qed.

(** The answers for a table key and for a stranger, through the theorem. *)
Lemma classify_acceptance_table_witness :
  (exists status confidence_score reason,
      result (classify (lit "image/gif")) world0 = inr (status, confidence_score, reason)
      /\ status = lit "accepted"
      /\ (confidence_score, reason) = (0.80%float, lit "GIF image - Accepted"))
  /\ (exists status confidence_score reason,
         result (classify (lit "application/zip")) world0
         = inr (status, confidence_score, reason)
         /\ status = lit "rejected" /\ confidence_score = 0.3%float
         /\ reason = lit "File type 'application/zip' not in accepted list - Rejected").
Proof.
  split.
  - destruct (proj1 (classify_acceptance_table world0) (lit "image/gif"))
      as (s & c & r & Hrun & _ & Hin & _).
    exists s, c, r. split; [exact Hrun|].
    apply (Hin (0.80%float, lit "GIF image - Accepted")). reflexivity.
  - destruct (proj1 (classify_acceptance_table world0) (lit "application/zip"))
      as (s & c & r & Hrun & _ & _ & Hout).
    exists s, c, r. split; [exact Hrun|].
    apply Hout. reflexivity.
Defined.

(* ===================================================================== *)
(** ** Signatures and text prefixes *)
(* ===================================================================== *)

(** C4.  Input without a data-URL prefix whose decoded bytes start with one
    of the ZIP signatures PK\x03\x04, PK\x05\x06, PK\x07\x08 is detected as
    the wordprocessing type with extension [docx], never as
    [application/zip]. *)
Theorem zip_signature_is_docx (base64_data : str) (decoded_data signature : bytes)
    (w : World) :
  startswith base64_data (lit "data:") = false ->
  b64decode base64_data false = inr decoded_data ->
  In signature zip_signatures ->
  startswith decoded_data signature = true ->
  result (detect_file_type base64_data) w = inr docx_type
  /\ result (detect_file_type base64_data) w <> inr (lit "application/zip", lit "zip").
Proof.
  intros Hdata Hdec Hsig Hstart.
  assert (result (detect_file_type base64_data) w = inr docx_type) as E.
  { rewrite (detect_file_type_decoded _ _ _ Hdata Hdec), file_signatures_items.
    destruct (startswith_split _ _ Hstart) as [rest ->].
    destruct Hsig as [<-|[<-|[<-|[]]]]; vm_compute; reflexivity. }
  split; [exact E|]. rewrite E. intros H. vm_compute in H. discriminate.
Qed.

(** The local file header, the end-of-central-directory record and the
    spanning marker, one input each. *)
Lemma zip_signature_is_docx_witness :
  result (detect_file_type (lit "UEsDBBQA")) world0 = inr docx_type
  /\ result (detect_file_type (lit "UEsFBgAAAAA=")) world0 = inr docx_type
  /\ result (detect_file_type (lit "UEsHCGFiY2Q=")) world0 = inr docx_type.
Proof.
  split; [|split].
  - apply (zip_signature_is_docx (lit "UEsDBBQA") [80; 75; 3; 4; 20; 0] [80; 75; 3; 4] world0);
      vm_compute; auto.
  - apply (zip_signature_is_docx (lit "UEsFBgAAAAA=") [80; 75; 5; 6; 0; 0; 0; 0]
             [80; 75; 5; 6] world0); vm_compute; auto.
  - apply (zip_signature_is_docx (lit "UEsHCGFiY2Q=") [80; 75; 7; 8; 97; 98; 99; 100]
             [80; 75; 7; 8] world0); vm_compute; auto.
Defined.

(** C6.  Input without a data-URL prefix whose decoded bytes start with
    [%PDF] is detected as [application/pdf], whatever follows: the signature
    table is consulted before the text prefixes. *)
Theorem pdf_signature_first (base64_data : str) (decoded_data : bytes) (w : World) :
  startswith base64_data (lit "data:") = false ->
  b64decode base64_data false = inr decoded_data ->
  startswith decoded_data (lit "%PDF") = true ->
  result (detect_file_type base64_data) w = inr (lit "application/pdf", lit "pdf").
Proof.
  intros Hdata Hdec Hstart.
  rewrite (detect_file_type_decoded _ _ _ Hdata Hdec), file_signatures_items.
  destruct (startswith_split _ _ Hstart) as [rest ->].
  vm_compute. reflexivity.
Qed.

(** The bytes [%PDF{"a":1}]: a PDF signature followed by JSON-looking text. *)
Lemma pdf_signature_first_witness :
  result (detect_file_type (lit "JVBERnsiYSI6MX0=")) world0
  = inr (lit "application/pdf", lit "pdf").
Proof.
  apply (pdf_signature_first (lit "JVBERnsiYSI6MX0=")
           [37; 80; 68; 70; 123; 34; 97; 34; 58; 49; 125] world0);
    vm_compute; reflexivity.
Defined.

(** With no signature in the way, the text stage decides. *)
Lemma detect_file_type_text_stage (base64_data : str) (decoded_data : bytes) (w : World) :
  startswith base64_data (lit "data:") = false ->
  b64decode base64_data false = inr decoded_data ->
  matches_signature decoded_data = false ->
  result (detect_file_type base64_data) w =
  inr (if (4 <=? List.length decoded_data)%nat
       then first_match text_rules (utf8_decode_ignore (firstn 100 decoded_data))
              generic_binary
       else generic_binary).
Proof.
  intros Hdata Hdec Hsig.
  rewrite (detect_file_type_decoded _ _ _ Hdata Hdec).
  unfold matches_signature in Hsig.
  destruct (find _ _) as [[sig v]|] eqn:F; [|reflexivity].
  apply find_some in F as [Hin Hsw].
  assert (existsb (fun item => startswith decoded_data (fst item))
            (dict_items file_signatures) = true) as E
    by (apply existsb_exists; eauto).
  congruence.
Qed.

(** C5.  Input without a data-URL prefix whose decoded bytes match no magic
    signature: with at least four bytes, the text decoded from the first
    hundred bytes is tested against the rows of [text_rules] in order
    ([<?xml]; [{] or [[]; [<html] or [<!DOCTYPE], as written; [<?php];
    [#!/]) and the first matching row gives the result; with no matching
    row, or fewer than four bytes, the result is the generic binary type. *)
Theorem text_prefixes_in_order (base64_data : str) (decoded_data : bytes) (w : World) :
  startswith base64_data (lit "data:") = false ->
  b64decode base64_data false = inr decoded_data ->
  matches_signature decoded_data = false ->
  text_rules =
    [ ([lit "<?xml"], (lit "application/xml", lit "xml"));
      ([lit "{"; lit "["], (lit "application/json", lit "json"));
      ([lit "<html"; lit "<!DOCTYPE"], (lit "text/html", lit "html"));
      ([lit "<?php"], (lit "application/x-httpd-php", lit "php"));
      ([lit "#!/"], (lit "text/plain", lit "txt")) ]
  /\ result (detect_file_type base64_data) w =
     inr (if (4 <=? List.length decoded_data)%nat
          then first_match text_rules (utf8_decode_ignore (firstn 100 decoded_data))
                 (lit "application/octet-stream", lit "bin")
          else (lit "application/octet-stream", lit "bin")).
Proof.
  intros Hdata Hdec Hsig. split; [reflexivity|].
  exact (detect_file_type_text_stage _ _ _ Hdata Hdec Hsig).
Qed.

(** The three buffers of the specification, a PHP script, an upper-case
    [<HTML>] that the case-sensitive test lets through to the fallback, and
    two bytes of JSON that are too few to be looked at. *)
Lemma text_prefixes_in_order_witness :
  result (detect_file_type (lit "eyJhIjoxfQ==")) world0
  = inr (lit "application/json", lit "json")
  /\ result (detect_file_type (lit "PCFET0NUWVBFIGh0bWw+")) world0
     = inr (lit "text/html", lit "html")
  /\ result (detect_file_type (lit "IyEvYmluL3No")) world0
     = inr (lit "text/plain", lit "txt")
  /\ result (detect_file_type (lit "PD9waHAgWw==")) world0
     = inr (lit "application/x-httpd-php", lit "php")
  /\ result (detect_file_type (lit "PEhUTUw+PGJvZHk+")) world0
     = inr (lit "application/octet-stream", lit "bin")
  /\ result (detect_file_type (lit "eyI=")) world0
     = inr (lit "application/octet-stream", lit "bin").
Proof.
  split; [|split; [|split; [|split; [|split]]]].
  - apply (proj2 (text_prefixes_in_order (lit "eyJhIjoxfQ==")
                    [123; 34; 97; 34; 58; 49; 125] world0 eq_refl eq_refl eq_refl)).
  - apply (proj2 (text_prefixes_in_order (lit "PCFET0NUWVBFIGh0bWw+")
                    [60; 33; 68; 79; 67; 84; 89; 80; 69; 32; 104; 116; 109; 108; 62]
                    world0 eq_refl eq_refl eq_refl)).
  - apply (proj2 (text_prefixes_in_order (lit "IyEvYmluL3No")
                    [35; 33; 47; 98; 105; 110; 47; 115; 104] world0
                    eq_refl eq_refl eq_refl)).
  - apply (proj2 (text_prefixes_in_order (lit "PD9waHAgWw==")
                    [60; 63; 112; 104; 112; 32; 91] world0 eq_refl eq_refl eq_refl)).
  - apply (proj2 (text_prefixes_in_order (lit "PEhUTUw+PGJvZHk+")
                    [60; 72; 84; 77; 76; 62; 60; 98; 111; 100; 121; 62] world0
                    eq_refl eq_refl eq_refl)).
  - apply (proj2 (text_prefixes_in_order (lit "eyI=") [123; 34] world0
                    eq_refl eq_refl eq_refl)).
Defined.

(* ===================================================================== *)
(** ** Totality and purity of the detector *)
(* ===================================================================== *)

(** [detect_file_type] never raises: whatever its body raises, the outer
    handler answers with the generic binary type. *)
Lemma detect_file_type_returns (base64_data : str) (w : World) :
  exists mime_type ext, result (detect_file_type base64_data) w = inr (mime_type, ext).
Proof.
  unfold result, detect_file_type, try_except.
  match goal with |- context [match ?b w with _ => _ end] => destruct (b w) as [[e|[m x]] w'] end.
  - now exists (fst generic_binary), (snd generic_binary).
  - now exists m, x.
Qed.

Lemma detect_file_type_undecodable (base64_data : str) (e : py_error) (w : World) :
  b64decode base64_data false = inl e ->
  detect_file_type base64_data w = (inr generic_binary, say [LogDetectError (Builtin e)] w).
Proof.
  intros H. unfold detect_file_type, try_except, bind, lift. now rewrite H.
Qed.

Lemma first_match_In rules (text : str) (default : str * str) :
  In (first_match rules text default) (map snd rules ++ [default]).
Proof.
  induction rules as [|[prefixes verdict] rules IH]; simpl; [now left|].
  destruct (existsb (startswith text) prefixes); [now left|now right].
Qed.

(** Without a data-URL prefix the result is one of the fixed pairs. *)
Lemma detect_file_type_fixed_types (base64_data : str) (w : World) :
  startswith base64_data (lit "data:") = false ->
  exists v, result (detect_file_type base64_data) w = inr v /\ In v detectable_types.
Proof.
  intros Hdata. unfold detectable_types.
  destruct (b64decode base64_data false) as [e|decoded_data] eqn:Hdec.
  - exists generic_binary. split.
    + unfold result. now rewrite (detect_file_type_undecodable _ _ _ Hdec).
    + apply in_or_app. right. apply in_or_app. right. now left.
  - rewrite (detect_file_type_decoded _ _ _ Hdata Hdec).
    destruct (find _ _) as [[sig v]|] eqn:F.
    + exists v. split; [reflexivity|]. apply find_some in F as [Hin _].
      apply in_or_app. left. now apply (in_map snd) in Hin.
    + eexists. split; [reflexivity|]. apply in_or_app. right.
      destruct (4 <=? List.length decoded_data)%nat.
      * apply first_match_In.
      * apply in_or_app. right. now left.
Qed.

Lemma detectable_types_nonempty :
  Forall (fun v : str * str => fst v <> [] /\ snd v <> []) detectable_types.
Proof. vm_compute. repeat constructor; discriminate. Qed.

(** C2.  The data URL of the specification, [data:image/png;base64,iVBORw0KGgo=]:
    [detect_file_type] first decodes the whole string, header included, as
    lenient base64; the thirty alphabet characters and the single pad are
    badly padded, the decoder raises, and the outer handler answers with the
    generic binary type instead of ([image/png], [png]). *)
Theorem data_url_png_not_detected (w : World) :
  b64decode (lit "data:image/png;base64,iVBORw0KGgo=") false
  = inl (BinasciiError IncorrectPadding)
  /\ result (detect_file_type (lit "data:image/png;base64,iVBORw0KGgo=")) w
     = inr (lit "application/octet-stream", lit "bin").
Proof.
  assert (b64decode (lit "data:image/png;base64,iVBORw0KGgo=") false
          = inl (BinasciiError IncorrectPadding)) as E by (vm_compute; reflexivity).
  split; [exact E|].
  unfold result. now rewrite (detect_file_type_undecodable _ _ _ E).
Qed.

(** When the whole string does decode, the header decides: the mime type is
    the text between the first colon and the first semicolon of the header,
    the extension what follows its last slash, or [bin] without a slash. *)
Lemma data_url_header_decides (base64_data header payload part mime_type : str)
    (decoded_data : bytes) (rest : list str) (w : World) :
  startswith base64_data (lit "data:") = true ->
  b64decode base64_data false = inr decoded_data ->
  split_max (chr ",") 1 base64_data = [header; payload] ->
  nth_error (split (chr ":") header) 1 = Some part ->
  split (chr ";") part = mime_type :: rest ->
  result (detect_file_type base64_data) w =
  inr (mime_type,
       if contains (chr "/") mime_type then last (split (chr "/") mime_type) []
       else lit "bin").
Proof.
  intros Hdata Hdec Hsplit Hpart Hmime.
  unfold result, detect_file_type, try_except.
  unfold bind at 1. unfold lift. rewrite Hdec. cbn [ret].
  unfold bind at 1. cbn [print].
  unfold or_else at 1, bind at 1, detect_from_data_url.
  rewrite Hdata. unfold try_except, bind, unpack2, index.
  rewrite Hsplit. cbn [ret]. rewrite Hpart. cbn [ret]. rewrite Hmime.
  reflexivity.
Qed.

Example data_url_png_two_pads (w : World) :
  result (detect_file_type (lit "data:image/png;base64,iVBORw0KGgo==")) w
  = inr (lit "image/png", lit "png").
Proof.
  rewrite (data_url_header_decides _ (lit "data:image/png;base64") (lit "iVBORw0KGgo==")
             (lit "image/png;base64") (lit "image/png")
             [117; 171; 90; 138; 102; 160; 123; 250; 103; 129; 182; 172; 123; 174;
              34; 84; 19; 145; 195; 66; 134; 130] [lit "base64"]);
    vm_compute; reflexivity.
Qed.

(** In the service the header never reaches the detector: [process_document]
    cuts it off before the call, so a data URL that declares [image/png] and
    carries the bytes [%PDF-1.4] is judged as a PDF document. *)
Example process_document_drops_data_url_header :
  result (process_document
            (DocumentRequest.make (IdInt 1) (IdInt 2)
               (lit "data:image/png;base64,JVBERi0xLjQ=")))
    world0
  = inr (DocumentResponse.make (IdInt 1) (IdInt 2) (lit "accepted") 0.95%float
           (lit "PDF document - Accepted")).
Proof. vm_compute. reflexivity. Qed.

(** A data URL with an empty mime type, and one whose mime type ends in a
    slash: the mime type, respectively the extension, comes back empty. *)
Lemma detect_file_type_empty_fields :
  ~ (exists mime_type ext,
        result (detect_file_type (lit "data:;base64,AA")) world0 = inr (mime_type, ext)
        /\ mime_type <> [] /\ ext <> [])
  /\ ~ (exists mime_type ext,
           result (detect_file_type (lit "data:image/;base64,")) world0
           = inr (mime_type, ext)
           /\ mime_type <> [] /\ ext <> []).
Proof.
  split; intros (m & x & Hrun & Hm & Hx); vm_compute in Hrun;
    injection Hrun as <- <-; congruence.
Qed.

(** C9.  [detect_file_type] and [classify] are pure: the value each returns
    is a function of its argument alone, the same in every world (clock,
    random source, directory, files, earlier output), and the only thing
    each does to the world is to append lines to the standard output, lines
    that again depend on the argument alone. *)
Theorem detect_and_classify_are_pure (base64_data mime_type : str) :
  (exists v ls, forall w, detect_file_type base64_data w = (inr v, say ls w))
  /\ (exists v ls, forall w, classify mime_type w = (inr v, say ls w))
  /\ (forall w1 w2, result (detect_file_type base64_data) w1
                    = result (detect_file_type base64_data) w2)
  /\ (forall w1 w2, result (classify mime_type) w1 = result (classify mime_type) w2).
Proof.
  destruct (detect_file_type_prints base64_data) as (r1 & l1 & H1).
  destruct (classify_prints mime_type) as (r2 & l2 & H2).
  destruct (detect_file_type_returns base64_data world0) as (m & x & Hd).
  unfold result in Hd. rewrite H1 in Hd. cbn [fst] in Hd. subst r1.
  pose proof (classify_run mime_type world0) as Hc.
  unfold result in Hc. rewrite H2 in Hc. cbn [fst] in Hc.
  assert (exists v, r2 = inr v) as [v ->]
    by (rewrite Hc; destruct (dict_get accepted_types mime_type) as [[c r]|]; eauto).
  split; [now exists (m, x), l1|]. split; [now exists v, l2|].
  unfold result. split; intros w1 w2.
  - now rewrite !H1.
  - now rewrite !H2.
Qed.

(* ===================================================================== *)
(** ** Lenient UTF-8 decoding *)
(* ===================================================================== *)

(** One unfolding of the decoder, with the recursive calls named [D]. *)
Lemma utf8_decode_ignore_step (D : bytes -> str) :
  (forall s, D s = utf8_decode_ignore s) ->
  forall (ch : Z) (s1 : bytes),
    utf8_decode_ignore (ch :: s1) =
    (if ch <? 128 then ch :: D s1
      else if ch <? 224 then
        if ch <? 194 then D s1
        else
          match s1 with
          | [] => []
          | ch2 :: s2 =>
              if is_continuation_byte ch2
              then (Z.shiftl (Z.land ch 31) 6 + Z.land ch2 63) :: D s2
              else D s1
          end
      else if ch <? 240 then
        match s1 with
        | [] => []
        | ch2 :: s2 =>
            if negb (is_continuation_byte ch2)
               || (if ch2 <? 160 then ch =? 224 else ch =? 237)
            then D s1
            else
              match s2 with
              | [] => []
              | ch3 :: s3 =>
                  if is_continuation_byte ch3
                  then (Z.shiftl (Z.land ch 15) 12 + Z.shiftl (Z.land ch2 63) 6
                        + Z.land ch3 63) :: D s3
                  else D s2
              end
        end
      else if ch <? 245 then
        match s1 with
        | [] => []
        | ch2 :: s2 =>
            if negb (is_continuation_byte ch2)
               || (if ch2 <? 144 then ch =? 240 else ch =? 244)
            then D s1
            else
              match s2 with
              | [] => []
              | ch3 :: s3 =>
                  if negb (is_continuation_byte ch3) then D s2
                  else
                    match s3 with
                    | [] => []
                    | ch4 :: s4 =>
                        if is_continuation_byte ch4
                        then (Z.shiftl (Z.land ch 7) 18 + Z.shiftl (Z.land ch2 63) 12
                              + Z.shiftl (Z.land ch3 63) 6 + Z.land ch4 63)
                               :: D s4
                        else D s3
                    end
              end
        end
      else D s1).
Proof.
  intros HD ch s1.
  destruct s1 as [|ch2 [|ch3 [|ch4 s4]]]; rewrite ?HD; reflexivity.
Qed.

Lemma is_continuation_byte_ascii (a : Z) :
  a < 128 -> is_continuation_byte a = false.
Proof.
  intros H. unfold is_continuation_byte.
  destruct (128 <=? a) eqn:E; [|reflexivity]. apply Z.leb_le in E. lia.
Qed.

Ltac split_ifs :=
  repeat match goal with
         | |- context [if ?c then _ else _] => destruct c
         end.

(** An ASCII byte is never part of a longer sequence and is never dropped, so
    the decoder treats what comes before it and what comes after it
    separately.  First one round of the decoder, the earlier rounds being
    given for shorter lists. *)
Section AsciiCut.
Variable D : bytes -> str.
Hypothesis HD : forall s, D s = utf8_decode_ignore s.
Variables (a : Z) (rest : bytes).
Hypothesis Ha : a < 128.
Variable n : nat.
Hypothesis IH : forall j, (List.length j <= n)%nat ->
                          D (j ++ a :: rest) = D j ++ a :: D rest.

Lemma utf8_decode_ignore_cut_step (junk : bytes) :
  (List.length junk <= S n)%nat ->
  utf8_decode_ignore (junk ++ a :: rest) = utf8_decode_ignore junk ++ a :: D rest.
Proof.
  intros Hlen.
  pose proof (is_continuation_byte_ascii a Ha) as Hcont.
  assert (D [] = []) as E0 by (rewrite HD; reflexivity).
  assert (D (a :: rest) = a :: D rest) as Ea.
  { rewrite HD. rewrite (utf8_decode_ignore_step D HD).
    apply Z.ltb_lt in Ha. now rewrite Ha. }
  assert (utf8_decode_ignore (a :: rest) = a :: D rest) as Ea' by now rewrite <- HD.
  destruct junk as [|c1 s]; [exact Ea'|].
  cbn [app].
  rewrite (utf8_decode_ignore_step D HD c1 (s ++ a :: rest)).
  rewrite (utf8_decode_ignore_step D HD c1 s).
  destruct s as [|c2 [|c3 [|c4 s4]]]; cbn [app List.length] in *;
    rewrite ?Hcont; cbn [negb orb].
  - rewrite ?Ea, ?E0. split_ifs; reflexivity.
  - pose proof (IH [c2] ltac:(cbn [List.length]; lia)) as E1. cbn [app] in E1.
    rewrite ?E1, ?Ea, ?E0. split_ifs; reflexivity.
  - pose proof (IH [c2; c3] ltac:(cbn [List.length]; lia)) as E2.
    pose proof (IH [c3] ltac:(cbn [List.length]; lia)) as E1. cbn [app] in E1, E2.
    rewrite ?E2, ?E1, ?Ea, ?E0. split_ifs; reflexivity.
  - pose proof (IH (c2 :: c3 :: c4 :: s4) ltac:(cbn [List.length]; lia)) as E3.
    pose proof (IH (c3 :: c4 :: s4) ltac:(cbn [List.length]; lia)) as E2.
    pose proof (IH (c4 :: s4) ltac:(cbn [List.length]; lia)) as E1.
    pose proof (IH s4 ltac:(lia)) as E4.
    cbn [app] in E1, E2, E3.
    rewrite ?E3, ?E2, ?E1, ?E4. split_ifs; reflexivity.
Qed.
End AsciiCut.

Lemma utf8_decode_ignore_ascii_cut (junk : bytes) (a : Z) (rest : bytes) :
  a < 128 ->
  utf8_decode_ignore (junk ++ a :: rest)
  = utf8_decode_ignore junk ++ a :: utf8_decode_ignore rest.
Proof.
  intros Ha.
  assert (forall n j, (List.length j <= n)%nat ->
            utf8_decode_ignore (j ++ a :: rest)
            = utf8_decode_ignore j ++ a :: utf8_decode_ignore rest) as H.
  { induction n as [|n IH]; intros j Hj.
    - destruct j; [|simpl in Hj; lia].
      simpl. apply Z.ltb_lt in Ha. now rewrite Ha.
    - now apply (utf8_decode_ignore_cut_step utf8_decode_ignore (fun s => eq_refl)
                   a rest Ha n IH). }
  now apply (H (List.length junk)).
Qed.

(** Bytes of which the decoder keeps nothing start with a non-ASCII byte. *)
Lemma utf8_dropped_head (c : Z) (junk : bytes) :
  utf8_decode_ignore (c :: junk) = [] -> (c <? 128) = false.
Proof.
  intros H. destruct (c <? 128) eqn:E; [|reflexivity].
  simpl in H. rewrite E in H. discriminate.
Qed.

(** A string that starts with [data:] and decodes as lenient base64 decodes
    to bytes that start with the letter [u]: the first byte is made of the
    six bits of [d] and the two high bits of [a]. *)
Lemma data_prefix_decodes_to_u (base64_data : str) (decoded_data : bytes) :
  startswith base64_data (lit "data:") = true ->
  b64decode base64_data false = inr decoded_data ->
  exists rest, decoded_data = 117 :: rest.
Proof.
  intros Hdata Hdec.
  destruct (startswith_split _ _ Hdata) as [tail ->].
  unfold b64decode in Hdec.
  destruct (encode_ascii _) as [e|data] eqn:Henc; [discriminate|].
  unfold encode_ascii in Henc.
  destruct (forallb _ _); [|discriminate]. injection Henc as <-.
  change (lit "data:" ++ tail) with (100 :: 97 :: (116 :: 97 :: 58 :: tail)) in Hdec.
  unfold a2b_base64 in Hdec. cbn [andb] in Hdec.
  remember (116 :: 97 :: 58 :: tail) as t.
  cbn in Hdec.
  destruct (a2b_base64_loop false t 2 _ 0 false _) as [e|out]; cbn in Hdec;
    [discriminate|].
  injection Hdec as <-. now exists out.
Qed.

(** C10, as the code has it.  The text stage decodes the first hundred bytes
    with invalid UTF-8 dropped.  So when the decoded buffer has at least
    four bytes, matches no signature, and begins with fewer than a hundred
    bytes of which the decoder keeps nothing, followed by [{], the result is
    ([application/json], [json]) although the first byte of the buffer is
    not [{].  Both conditions on the leading bytes are needed: a hundred
    stray bytes, or a stray byte and then a valid character, before the
    brace give the generic binary type. *)
Theorem invalid_utf8_before_brace_is_json (base64_data : str)
    (decoded_data junk rest : bytes) (w : World) :
  b64decode base64_data false = inr decoded_data ->
  decoded_data = junk ++ 123 :: rest ->
  junk <> [] ->
  utf8_decode_ignore junk = [] ->
  (List.length junk < 100)%nat ->
  (4 <= List.length decoded_data)%nat ->
  matches_signature decoded_data = false ->
  result (detect_file_type base64_data) w = inr (lit "application/json", lit "json")
  /\ nth_error decoded_data 0 <> Some 123.
Proof.
  intros Hdec Hshape Hjunk Hdrop Hwin Hlen Hsig.
  destruct junk as [|c junk']; [contradiction|].
  pose proof (utf8_dropped_head _ _ Hdrop) as Hc.
  assert (nth_error decoded_data 0 <> Some 123) as Hfirst.
  { subst decoded_data. cbn. intros [= ->]. discriminate. }
  split; [|exact Hfirst].
  assert (startswith base64_data (lit "data:") = false) as Hdata.
  { destruct (startswith base64_data (lit "data:")) eqn:E; [|reflexivity].
    destruct (data_prefix_decodes_to_u _ _ E Hdec) as [t Ht].
    rewrite Ht in Hshape. injection Hshape as <- _. discriminate. }
  rewrite (detect_file_type_text_stage _ _ _ Hdata Hdec Hsig).
  apply Nat.leb_le in Hlen. rewrite Hlen.
  subst decoded_data.
  rewrite firstn_app, (firstn_all2 (n := 100)) by lia.
  destruct (100 - List.length (c :: junk'))%nat as [|k] eqn:Hk; [lia|].
  cbn [firstn].
  rewrite utf8_decode_ignore_ascii_cut by lia. rewrite Hdrop. cbn [app].
  generalize (utf8_decode_ignore (firstn k rest)). intros text.
  reflexivity.
Qed.

(** Two stray bytes, [0x80 0xfe], and a truncated three-byte sequence,
    [0xe2 0x82], each followed by [{"a":1}]. *)
Lemma invalid_utf8_before_brace_is_json_witness :
  result (detect_file_type (lit "gP57ImEiOjF9")) world0
  = inr (lit "application/json", lit "json")
  /\ result (detect_file_type (lit "4oJ7ImEiOjF9")) world0
     = inr (lit "application/json", lit "json").
Proof.
  split.
  - apply (invalid_utf8_before_brace_is_json (lit "gP57ImEiOjF9")
             [128; 254; 123; 34; 97; 34; 58; 49; 125] [128; 254]
             [34; 97; 34; 58; 49; 125] world0);
      try (vm_compute; reflexivity); try discriminate; cbn; lia.
  - apply (invalid_utf8_before_brace_is_json (lit "4oJ7ImEiOjF9")
             [226; 130; 123; 34; 97; 34; 58; 49; 125] [226; 130]
             [34; 97; 34; 58; 49; 125] world0);
      try (vm_compute; reflexivity); try discriminate; cbn; lia.
Defined.

(** Invalid leading bytes before [{] that do not give JSON.  A hundred
    stray bytes [0x80] before [{"a":1}]: the brace lies behind the hundred
    bytes the text stage reads, and nothing is left of those.  And the stray
    byte [0x80] followed by the two bytes of a valid character, [0xc3 0xa9],
    before [{"a":1}]: the decoder drops the stray byte only, and the text
    starts with that character.  Both buffers have at least four bytes and
    fit no signature, and both get the generic binary type. *)
Lemma invalid_utf8_before_brace_not_json :
  (exists decoded_data,
      b64decode (lit "gICAgICAgICAgICAgICAgICAgICAgICAgICAgICAgICAgICAgICAgICAgICAgICAgICAgICAgICAgICAgICAgICAgICAgICAgICAgICAgICAgICAgICAgICAgICAgICAgICAgHsiYSI6MX0=") false = inr decoded_data
      /\ decoded_data = repeat 128 100 ++ 123 :: [34; 97; 34; 58; 49; 125]
      /\ utf8_decode_ignore (repeat 128 100) = []
      /\ (4 <= List.length decoded_data)%nat
      /\ matches_signature decoded_data = false
      /\ result (detect_file_type (lit "gICAgICAgICAgICAgICAgICAgICAgICAgICAgICAgICAgICAgICAgICAgICAgICAgICAgICAgICAgICAgICAgICAgICAgICAgICAgICAgICAgICAgICAgICAgICAgICAgICAgHsiYSI6MX0=")) world0
         = inr (lit "application/octet-stream", lit "bin"))
  /\ (exists decoded_data,
         b64decode (lit "gMOpeyJhIjoxfQ==") false = inr decoded_data
         /\ decoded_data = [128; 195; 169] ++ 123 :: [34; 97; 34; 58; 49; 125]
         /\ utf8_decode_ignore [128] = []
         /\ utf8_decode_ignore [128; 195; 169] = [233]
         /\ (4 <= List.length decoded_data)%nat
         /\ matches_signature decoded_data = false
         /\ result (detect_file_type (lit "gMOpeyJhIjoxfQ==")) world0
            = inr (lit "application/octet-stream", lit "bin")).
Proof.
  split.
  - eexists. split; [vm_compute; reflexivity|].
    split; [vm_compute; reflexivity|]. split; [vm_compute; reflexivity|].
    split; [apply Nat.leb_le; vm_compute; reflexivity|].
    split; vm_compute; reflexivity.
  - eexists. split; [vm_compute; reflexivity|].
    split; [reflexivity|]. split; [vm_compute; reflexivity|].
    split; [vm_compute; reflexivity|].
    split; [apply Nat.leb_le; vm_compute; reflexivity|].
    split; vm_compute; reflexivity.
Qed.

(* ===================================================================== *)
(** ** process_document *)
(* ===================================================================== *)

(** Every call of [detect_file_type] shows on the standard output: its first
    line reports the size of the decoded data, or the decoding error. *)
Lemma detect_file_type_leaves_trace (base64_data : str) :
  exists l ls,
    (forall w, snd (detect_file_type base64_data w) = say (l :: ls) w)
    /\ ((exists n, l = LogAnalyzing n) \/ (exists e, l = LogDetectError e)).
Proof.
  destruct (b64decode base64_data false) as [e|d] eqn:Hdec.
  - exists (LogDetectError (Builtin e)), []. split; [|right; eauto].
    intros w. now rewrite (detect_file_type_undecodable _ _ _ Hdec).
  - assert (only_prints
              (or_else (detect_from_data_url base64_data)
                 (or_else (detect_from_signature (dict_items file_signatures) d)
                    (or_else (detect_from_text d)
                       (print LogGenericBinary ;; ret generic_binary)))))
      as (r & ls & Hrest).
    { apply only_prints_or_else; [apply detect_from_data_url_prints|].
      apply only_prints_or_else; [apply detect_from_signature_prints|].
      apply only_prints_or_else; [apply detect_from_text_prints|]. prints. }
    destruct r as [e|v].
    + exists (LogAnalyzing (List.length d)), (ls ++ [LogDetectError e]).
      split; [|left; eauto]. intros w.
      unfold detect_file_type, try_except, bind at 1, lift. rewrite Hdec. cbn [ret].
      unfold bind at 1. cbn [print]. rewrite Hrest.
      unfold bind, print, ret, say.
      cbn [stdout now uuid4 draws cwd dirs files refused snd].
      now rewrite <- !app_assoc.
    + exists (LogAnalyzing (List.length d)), ls.
      split; [|left; eauto]. intros w.
      unfold detect_file_type, try_except, bind at 1, lift. rewrite Hdec. cbn [ret].
      unfold bind at 1. cbn [print]. rewrite Hrest. unfold say.
      cbn [stdout now uuid4 draws cwd dirs files refused snd].
      now rewrite <- !app_assoc.
Qed.

(** Every call of [classify] prints the verdict line. *)
Lemma classify_leaves_trace (mime_type : str) :
  exists l,
    (forall w, snd (classify mime_type w) = say [l] w)
    /\ ((exists r, l = LogAccepted r) \/ (exists r, l = LogRejected r)).
Proof.
  unfold classify, dict_mem.
  destruct (dict_get accepted_types mime_type) as [[c r]|].
  - exists (LogAccepted r). split; [reflexivity|left; eauto].
  - eexists (LogRejected _). split; [reflexivity|right; eauto].
Qed.

(** What [save_temp_file] does: one uuid drawn, the directory made, one file
    written under the name built from the identifiers, the clock, the uuid
    and the extension, two lines printed; or [OSError] where the operating
    system refuses. *)
Lemma save_temp_file_run (decoded_data : bytes) (record_id document_id : ident)
    (file_extension : str) (w : World) :
  let temp_dir := path_join (cwd w) (lit "temp_files") in
  let temp_file_path :=
    path_join temp_dir
      (lit "record_" ++ str_of_ident record_id ++ lit "_doc_"
       ++ str_of_ident document_id ++ lit "_" ++ now w ++ lit "_"
       ++ firstn 8 (uuid4 w (draws w)) ++ lit "." ++ file_extension) in
  save_temp_file decoded_data record_id document_id file_extension w =
  if refused w temp_dir then
    (inl (Builtin OSError),
     mkWorld (stdout w) (now w) (uuid4 w) (S (draws w)) (cwd w) (dirs w) (files w)
             (refused w))
  else if refused w temp_file_path then
    (inl (Builtin OSError),
     mkWorld (stdout w) (now w) (uuid4 w) (S (draws w)) (cwd w) (temp_dir :: dirs w)
             (files w) (refused w))
  else
    (inr temp_file_path,
     mkWorld (stdout w ++ [LogFileSaved temp_file_path;
                           LogFileSize (List.length decoded_data)])
             (now w) (uuid4 w) (S (draws w)) (cwd w) (temp_dir :: dirs w)
             ((temp_file_path, decoded_data) :: files w) (refused w)).
Proof.
  cbv zeta.
  unfold save_temp_file, bind, strftime_now, uuid4_str, getcwd, makedirs, write_file,
    print, ret.
  cbn [stdout now uuid4 draws cwd dirs files refused].
  destruct (refused w (path_join (cwd w) (lit "temp_files"))); [reflexivity|].
  cbn [stdout now uuid4 draws cwd dirs files refused].
  destruct (refused w _); [reflexivity|].
  cbn [stdout now uuid4 draws cwd dirs files refused].
  now rewrite <- app_assoc.
Qed.

(** [save_temp_file] raises nothing but [OSError], and leaves the files as
    they were when it raises. *)
Lemma save_temp_file_raises (decoded_data : bytes) (record_id document_id : ident)
    (file_extension : str) (w w' : World) (e : exn) :
  save_temp_file decoded_data record_id document_id file_extension w = (inl e, w') ->
  e = Builtin OSError /\ files w' = files w /\ stdout w' = stdout w.
Proof.
  rewrite save_temp_file_run. cbv zeta.
  destruct (refused w _); [intros [= <- <-]; auto|].
  destruct (refused w _); [intros [= <- <-]; auto|discriminate].
Qed.

Lemma save_temp_file_returns (decoded_data : bytes) (record_id document_id : ident)
    (file_extension : str) (w w' : World) (path : str) :
  save_temp_file decoded_data record_id document_id file_extension w = (inr path, w') ->
  files w' = (path, decoded_data) :: files w
  /\ stdout w' = stdout w ++ [LogFileSaved path; LogFileSize (List.length decoded_data)].
Proof.
  rewrite save_temp_file_run. cbv zeta.
  destruct (refused w _); [discriminate|].
  destruct (refused w _); [discriminate|].
  intros [= <- <-]. auto.
Qed.

(** The start of [process_document], up to the cleaned payload. *)
Lemma process_document_payload (base64_data payload : str) (w : World) :
  request_payload base64_data = Some payload ->
  (if startswith base64_data (lit "data:")
   then index (split_max (chr ",") 1 base64_data) 1
   else ret base64_data) w = (inr payload, w).
Proof.
  unfold request_payload, index.
  destruct (startswith base64_data (lit "data:")).
  - intros ->. reflexivity.
  - intros [= ->]. reflexivity.
Qed.

Ltac run_print := rewrite (bind_run_ok _ _ _ _ _ (print_run _ _)); cbv beta.

(** A data URL without a comma has no payload: the index of line 152 raises
    and the request is answered with a server error, before any decoding. *)
Lemma data_url_without_comma_is_server_error (request : DocumentRequest.t) (w : World) :
  request_payload (DocumentRequest.base64_data request) = None ->
  process_document request w =
  (inl (HTTPException 500 (InternalServerError (Builtin IndexError))),
   say [LogProcessing;
        LogRecordId (DocumentRequest.record_id request);
        LogDocumentId (DocumentRequest.document_id request);
        LogInternalError (Builtin IndexError)] w).
Proof.
  intros Hpay.
  unfold process_document, try_except at 1.
  do 3 run_print.
  unfold request_payload in Hpay.
  unfold bind at 1.
  destruct (startswith _ (lit "data:")); [|discriminate].
  unfold index. rewrite Hpay. unfold raise at 1.
  run_print. unfold raise. now rewrite !say_say.
Qed.

(** C7.  The request body [data:abc] is malformed: it does not decode under
    strict validation, and as a data URL it has no comma and so no payload.
    [process_document] answers it with [HTTPException 500], not 400: the
    index of line 152 raises [IndexError] outside the inner [try], and the
    outer handler turns it into a server error.  Classification does not
    run: the four lines printed are the three of the prelude and the one of
    the outer handler. *)
Theorem malformed_data_url_is_server_error (w : World) :
  b64decode (lit "data:abc") true = inl (BinasciiError OnlyBase64Allowed)
  /\ request_payload (lit "data:abc") = None
  /\ process_document
       (DocumentRequest.make (IdInt 7) (IdStr (lit "doc-1")) (lit "data:abc")) w
     = (inl (HTTPException 500 (InternalServerError (Builtin IndexError))),
        say [LogProcessing;
             LogRecordId (IdInt 7);
             LogDocumentId (IdStr (lit "doc-1"));
             LogInternalError (Builtin IndexError)] w).
Proof.
  split; [vm_compute; reflexivity|]. split; [reflexivity|].
  exact (data_url_without_comma_is_server_error
           (DocumentRequest.make (IdInt 7) (IdStr (lit "doc-1")) (lit "data:abc"))
           w eq_refl).
Qed.

(** The whole run of [process_document] on a payload that validates: the
    prelude, the detector, the verdict, then one call of [save_temp_file]
    whose outcome decides between the response and the server error. *)
Lemma process_document_run (request : DocumentRequest.t) (payload : str)
    (decoded_data : bytes) (w : World) (mime_type file_extension status reason : str)
    (confidence_score : float) (ld lc : list log_line) :
  request_payload (DocumentRequest.base64_data request) = Some payload ->
  b64decode payload true = inr decoded_data ->
  decoded_data <> [] ->
  (forall w', detect_file_type payload w' = (inr (mime_type, file_extension), say ld w')) ->
  (forall w', classify mime_type w' = (inr (status, confidence_score, reason), say lc w')) ->
  process_document request w =
  match save_temp_file decoded_data (DocumentRequest.record_id request)
          (DocumentRequest.document_id request) file_extension
          (say lc (say ld (say [LogProcessing;
                                LogRecordId (DocumentRequest.record_id request);
                                LogDocumentId (DocumentRequest.document_id request);
                                LogValidationOk] w))) with
  | (inr temp_file_path, ws) =>
      (inr (DocumentResponse.make (DocumentRequest.record_id request)
              (DocumentRequest.document_id request) status confidence_score reason),
       say [LogSending; LogStatus status; LogConfidenceScore confidence_score;
            LogReason reason; LogFileType mime_type; LogFileExtension file_extension;
            LogResponseFileSize (List.length decoded_data);
            LogSavedTo temp_file_path] ws)
  | (inl (HTTPException status_code detail), ws) =>
      (inl (HTTPException status_code detail), ws)
  | (inl e, ws) =>
      (inl (HTTPException 500 (InternalServerError e)), say [LogInternalError e] ws)
  end.
Proof.
  intros Hpay Hdec Hne Hdet Hcls.
  unfold process_document, try_except at 1.
  do 3 run_print.
  rewrite (bind_run_ok _ _ _ _ _ (process_document_payload _ _ _ Hpay)).
  unfold bind at 1, try_except at 1, lift. rewrite Hdec. cbn [ret].
  destruct decoded_data as [|b0 bs]; [contradiction|].
  cbn [List.length Nat.eqb].
  unfold bind at 1. cbn [ret]. run_print.
  rewrite (bind_run_ok _ _ _ _ _ (Hdet _)). cbv beta iota.
  rewrite (bind_run_ok _ _ _ _ _ (Hcls _)). cbv beta iota.
  rewrite !say_say. cbn [app].
  unfold bind at 1.
  destruct (save_temp_file _ _ _ _ _) as [[e|temp_file_path] ws].
  - destruct e as [e|code detail]; reflexivity.
  - do 8 run_print. cbn [ret]. now rewrite !say_say.
Qed.

(** C8.  A request whose payload decodes under strict validation to at least
    one byte is classified and then saved, once: [detect_file_type] and
    [classify] run first, on the standard output only, and fix the mime
    type, the extension and the verdict [(status, confidence_score, reason)];
    then [save_temp_file] is called with the decoded bytes, the two
    identifiers and the extension, whatever the status.  If it returns, the
    response carries the verdict fixed before and exactly one file has been
    written; if it raises, the answer is [HTTPException 500].  In both cases
    exactly one uuid has been drawn. *)
Theorem save_once_after_classification (request : DocumentRequest.t)
    (payload : str) (decoded_data : bytes) (w : World) :
  request_payload (DocumentRequest.base64_data request) = Some payload ->
  b64decode payload true = inr decoded_data ->
  decoded_data <> [] ->
  exists mime_type file_extension status confidence_score reason ld lc,
    (forall w', detect_file_type payload w' = (inr (mime_type, file_extension), say ld w'))
    /\ (forall w', classify mime_type w'
                   = (inr (status, confidence_score, reason), say lc w'))
    /\ let record_id := DocumentRequest.record_id request in
       let document_id := DocumentRequest.document_id request in
       let wc :=
         say lc (say ld (say [LogProcessing; LogRecordId record_id;
                              LogDocumentId document_id; LogValidationOk] w)) in
       match save_temp_file decoded_data record_id document_id file_extension wc with
       | (inr temp_file_path, ws) =>
           process_document request w =
           (inr (DocumentResponse.make record_id document_id status confidence_score
                   reason),
            say [LogSending; LogStatus status; LogConfidenceScore confidence_score;
                 LogReason reason; LogFileType mime_type;
                 LogFileExtension file_extension;
                 LogResponseFileSize (List.length decoded_data);
                 LogSavedTo temp_file_path] ws)
           /\ files ws = (temp_file_path, decoded_data) :: files w
           /\ draws ws = S (draws w)
       | (inl e, ws) =>
           process_document request w =
           (inl (HTTPException 500 (InternalServerError e)), say [LogInternalError e] ws)
           /\ files ws = files w
           /\ draws ws = S (draws w)
       end.
Proof.
  intros Hpay Hdec Hne.
  destruct (detect_file_type_prints payload) as (r1 & ld & Hdet).
  destruct (detect_file_type_returns payload w) as (mime_type & file_extension & Hd).
  unfold result in Hd. rewrite Hdet in Hd. cbn [fst] in Hd. subst r1.
  destruct (classify_prints mime_type) as (r2 & lc & Hcls).
  pose proof (classify_run mime_type w) as Hc.
  unfold result in Hc. rewrite Hcls in Hc. cbn [fst] in Hc.
  assert (exists status confidence_score reason,
             r2 = inr (status, confidence_score, reason)) as (status & score & reason & ->)
    by (rewrite Hc; destruct (dict_get accepted_types mime_type) as [[c r]|]; eauto).
  exists mime_type, file_extension, status, score, reason, ld, lc.
  split; [exact Hdet|]. split; [exact Hcls|]. cbv zeta.
  rewrite (process_document_run _ _ _ w _ _ _ _ _ _ _ Hpay Hdec Hne Hdet Hcls).
  destruct (save_temp_file _ _ _ _ _) as [[e|temp_file_path] ws] eqn:Hsave.
  - destruct (save_temp_file_raises _ _ _ _ _ _ _ Hsave) as (-> & Hfiles & _).
    split; [reflexivity|]. split; [exact Hfiles|].
    rewrite save_temp_file_run in Hsave. cbv zeta in Hsave.
    repeat match type of Hsave with
           | context [if ?c then _ else _] => destruct c
           end; try discriminate; injection Hsave as <-; reflexivity.
  - destruct (save_temp_file_returns _ _ _ _ _ _ _ Hsave) as (Hfiles & _).
    split; [reflexivity|]. split; [exact Hfiles|].
    rewrite save_temp_file_run in Hsave. cbv zeta in Hsave.
    repeat match type of Hsave with
           | context [if ?c then _ else _] => destruct c
           end; try discriminate. injection Hsave as _ <-. reflexivity.
Qed.

(** An accepted JSON document and a rejected binary one are both saved, each
    in one file named after the request; where the operating system refuses
    the write, the same request is answered with a server error. *)
Lemma save_once_after_classification_witness :
  (result (process_document
             (DocumentRequest.make (IdInt 7) (IdStr (lit "doc-1")) (lit "eyJhIjoxfQ==")))
     world0
   = inr (DocumentResponse.make (IdInt 7) (IdStr (lit "doc-1")) (lit "accepted")
            0.75%float (lit "JSON file - Accepted"))
   /\ files (snd (process_document
                    (DocumentRequest.make (IdInt 7) (IdStr (lit "doc-1"))
                       (lit "eyJhIjoxfQ=="))
                    world0))
      = [(lit "/srv/app/temp_files/record_7_doc_doc-1_20240101_120000_123e4567.json",
          [123; 34; 97; 34; 58; 49; 125])])
  /\ (result (process_document
                (DocumentRequest.make (IdInt 7) (IdStr (lit "doc-2")) (lit "AAECAwQ=")))
        world0
      = inr (DocumentResponse.make (IdInt 7) (IdStr (lit "doc-2")) (lit "rejected")
               0.3%float
               (lit "File type 'application/octet-stream' not in accepted list - Rejected"))
      /\ files (snd (process_document
                       (DocumentRequest.make (IdInt 7) (IdStr (lit "doc-2"))
                          (lit "AAECAwQ="))
                       world0))
         = [(lit "/srv/app/temp_files/record_7_doc_doc-2_20240101_120000_123e4567.bin",
             [0; 1; 2; 3; 4])])
  /\ result (process_document
               (DocumentRequest.make (IdInt 7) (IdStr (lit "doc-1")) (lit "eyJhIjoxfQ==")))
       read_only_world
     = inl (HTTPException 500 (InternalServerError (Builtin OSError))).
Proof.
  split; [|split].
  - destruct (save_once_after_classification
                (DocumentRequest.make (IdInt 7) (IdStr (lit "doc-1")) (lit "eyJhIjoxfQ=="))
                (lit "eyJhIjoxfQ==") [123; 34; 97; 34; 58; 49; 125] world0
                eq_refl eq_refl ltac:(discriminate))
      as (m & x & st & sc & rs & ld & lc & Hdet & Hcls & Hrun).
    pose proof (Hdet world0) as E1. vm_compute in E1. injection E1 as <- <- <-.
    pose proof (Hcls world0) as E2. vm_compute in E2. injection E2 as <- <- <- <-.
    unfold result.
    remember (process_document _ world0) as run eqn:Erun. clear Erun Hdet Hcls.
    vm_compute in Hrun. destruct Hrun as (-> & _ & _). vm_compute. split; reflexivity.
  - destruct (save_once_after_classification
                (DocumentRequest.make (IdInt 7) (IdStr (lit "doc-2")) (lit "AAECAwQ="))
                (lit "AAECAwQ=") [0; 1; 2; 3; 4] world0
                eq_refl eq_refl ltac:(discriminate))
      as (m & x & st & sc & rs & ld & lc & Hdet & Hcls & Hrun).
    pose proof (Hdet world0) as E1. vm_compute in E1. injection E1 as <- <- <-.
    pose proof (Hcls world0) as E2. vm_compute in E2. injection E2 as <- <- <- <-.
    unfold result.
    remember (process_document _ world0) as run eqn:Erun. clear Erun Hdet Hcls.
    vm_compute in Hrun. destruct Hrun as (-> & _ & _). vm_compute. split; reflexivity.
  - destruct (save_once_after_classification
                (DocumentRequest.make (IdInt 7) (IdStr (lit "doc-1")) (lit "eyJhIjoxfQ=="))
                (lit "eyJhIjoxfQ==") [123; 34; 97; 34; 58; 49; 125] read_only_world
                eq_refl eq_refl ltac:(discriminate))
      as (m & x & st & sc & rs & ld & lc & Hdet & Hcls & Hrun).
    pose proof (Hdet world0) as E1. vm_compute in E1. injection E1 as <- <- <-.
    pose proof (Hcls world0) as E2. vm_compute in E2. injection E2 as <- <- <- <-.
    unfold result.
    remember (process_document _ read_only_world) as run eqn:Erun. clear Erun Hdet Hcls.
    vm_compute in Hrun. destruct Hrun as (-> & _ & _). vm_compute. reflexivity.
Defined.

(* ===================================================================== *)
(** ** Strict and lenient base64 *)
(* ===================================================================== *)

Lemma emit_inr (b : Z) (r : b64_fault + bytes) (out : bytes) :
  emit b r = inr out -> exists out', r = inr out' /\ out = b :: out'.
Proof.
  destruct r as [e|out']; simpl; [discriminate|].
  intros [= <-]. eauto.
Qed.

(** What the strict loop accepts, the lenient loop decodes to the same
    bytes, whatever it remembers about padding and about the count. *)
Lemma a2b_base64_loop_strict_lenient (data : bytes) :
  forall (quad_pos leftchar pads : Z) (ps ps' : bool) (n n' : Z) (out : bytes),
    a2b_base64_loop true data quad_pos leftchar pads ps n = inr out ->
    a2b_base64_loop false data quad_pos leftchar pads ps' n' = inr out.
Proof.
  induction data as [|c data IH]; intros q l p ps ps' n n' out H.
  - simpl in *. destruct (q =? 0); [exact H|].
    destruct (q =? 1); discriminate.
  - cbn [a2b_base64_loop] in *.
    destruct (c =? BASE64_PAD).
    + destruct (2 <=? q).
      * destruct (4 <=? q + (p + 1)).
        -- cbn [andb] in *. destruct (negb _); [discriminate|exact H].
        -- eapply IH; exact H.
      * eapply IH; exact H.
    + destruct (table_a2b_base64 c) as [v|]; [|discriminate].
      cbn [andb] in *. destruct ps; [discriminate|].
      destruct q as [|[[?|?|]|[?|?|]|]|?];
        try (apply emit_inr in H as (out' & H & ->);
             erewrite IH by exact H; reflexivity).
      eapply IH; exact H.
Qed.

Lemma b64decode_strict_lenient (s : str) (decoded_data : bytes) :
  b64decode s true = inr decoded_data -> b64decode s false = inr decoded_data.
Proof.
  unfold b64decode. destruct (encode_ascii s) as [e|data]; [discriminate|].
  unfold a2b_base64.
  destruct data as [|first data].
  - destruct (a2b_base64_loop true [] 0 0 0 false 0) as [e|out] eqn:E; [discriminate|].
    intros [= <-]. now rewrite (a2b_base64_loop_strict_lenient _ _ _ _ _ false _ 0 _ E).
  - cbn [andb]. destruct (first =? BASE64_PAD); [discriminate|].
    destruct (a2b_base64_loop true (first :: data) 0 0 0 false 0) as [e|out] eqn:E;
      [discriminate|].
    intros [= <-]. now rewrite (a2b_base64_loop_strict_lenient _ _ _ _ _ false _ 0 _ E).
Qed.

(** A colon is not base64: no string that starts with [data:] validates. *)
Lemma b64decode_strict_no_data_prefix (s : str) (decoded_data : bytes) :
  b64decode s true = inr decoded_data -> startswith s (lit "data:") = false.
Proof.
  intros H. destruct (startswith s (lit "data:")) eqn:E; [|reflexivity].
  destruct (startswith_split _ _ E) as [tail ->].
  unfold b64decode in H.
  destruct (encode_ascii _) as [e|data] eqn:Henc; [discriminate|].
  unfold encode_ascii in Henc.
  destruct (forallb _ _); [|discriminate]. injection Henc as <-.
  change (lit "data:" ++ tail) with (100 :: 97 :: 116 :: 97 :: 58 :: tail) in H.
  cbn in H. discriminate.
Qed.

(* ===================================================================== *)
(** ** Every run of process_document *)
(* ===================================================================== *)

Lemma process_document_undecodable (request : DocumentRequest.t) (payload : str)
    (e : py_error) (w : World) :
  request_payload (DocumentRequest.base64_data request) = Some payload ->
  b64decode payload true = inl e ->
  process_document request w =
  (inl (HTTPException 400 (InvalidBase64Data (Builtin e))),
   say [LogProcessing;
        LogRecordId (DocumentRequest.record_id request);
        LogDocumentId (DocumentRequest.document_id request);
        LogInvalidBase64 (Builtin e)] w).
Proof.
  intros Hpay He.
  unfold process_document, try_except at 1.
  do 3 run_print.
  rewrite (bind_run_ok _ _ _ _ _ (process_document_payload _ _ _ Hpay)).
  unfold bind at 1, try_except at 1, lift. rewrite He.
  unfold raise at 1. run_print. unfold raise.
  now rewrite !say_say.
Qed.

Lemma process_document_empty (request : DocumentRequest.t) (payload : str) (w : World) :
  request_payload (DocumentRequest.base64_data request) = Some payload ->
  b64decode payload true = inr [] ->
  process_document request w =
  (inl (HTTPException 400 EmptyFileData),
   say [LogProcessing;
        LogRecordId (DocumentRequest.record_id request);
        LogDocumentId (DocumentRequest.document_id request);
        LogEmptyFile] w).
Proof.
  intros Hpay He.
  unfold process_document, try_except at 1.
  do 3 run_print.
  rewrite (bind_run_ok _ _ _ _ _ (process_document_payload _ _ _ Hpay)).
  unfold bind at 1, try_except at 1, lift. rewrite He. cbn [ret List.length Nat.eqb].
  unfold bind at 1. run_print. unfold raise.
  now rewrite !say_say.
Qed.

(** In the service the detector sees a validated payload: no data-URL
    header, and the bytes that were validated. *)
Lemma detect_file_type_validated (payload : str) (decoded_data : bytes) (w : World) :
  b64decode payload true = inr decoded_data ->
  result (detect_file_type payload) w =
  match find (fun item => startswith decoded_data (fst item)) (dict_items file_signatures) with
  | Some (_, v) => inr v
  | None =>
      inr (if (4 <=? List.length decoded_data)%nat
           then first_match text_rules (utf8_decode_ignore (firstn 100 decoded_data))
                  generic_binary
           else generic_binary)
  end.
Proof.
  intros H. apply detect_file_type_decoded.
  - exact (b64decode_strict_no_data_prefix _ _ H).
  - exact (b64decode_strict_lenient _ _ H).
Qed.

(** The verdict for each type the detector can produce without a header. *)
Lemma detectable_types_verdicts :
  Forall (fun v : str * str =>
            match dict_get accepted_types (fst v) with
            | Some (c, r) => In (lit "accepted", c, r) service_verdicts
            | None =>
                In (lit "rejected", 0.3%float,
                    lit "File type '" ++ fst v ++ lit "' not in accepted list - Rejected")
                   service_verdicts
            end) detectable_types.
Proof.
  apply Forall_forall. intros v Hin. vm_compute in Hin.
  repeat (destruct Hin as [<-|Hin]; [vm_compute; tauto|]).
  contradiction.
Qed.

(** The four ways a run can go: no payload, a payload that does not
    validate, an empty one, and a payload that is classified and handed to
    [save_temp_file]. *)
Lemma process_document_outcome (request : DocumentRequest.t) (w : World) :
  let record_id := DocumentRequest.record_id request in
  let document_id := DocumentRequest.document_id request in
  let prelude := [LogProcessing; LogRecordId record_id; LogDocumentId document_id] in
  (request_payload (DocumentRequest.base64_data request) = None
   /\ process_document request w =
      (inl (HTTPException 500 (InternalServerError (Builtin IndexError))),
       say (prelude ++ [LogInternalError (Builtin IndexError)]) w))
  \/ (exists payload e,
         request_payload (DocumentRequest.base64_data request) = Some payload
         /\ b64decode payload true = inl e
         /\ process_document request w =
            (inl (HTTPException 400 (InvalidBase64Data (Builtin e))),
             say (prelude ++ [LogInvalidBase64 (Builtin e)]) w))
  \/ (exists payload,
         request_payload (DocumentRequest.base64_data request) = Some payload
         /\ b64decode payload true = inr []
         /\ process_document request w =
            (inl (HTTPException 400 EmptyFileData), say (prelude ++ [LogEmptyFile]) w))
  \/ (exists payload decoded_data v status confidence_score reason ld lc,
         request_payload (DocumentRequest.base64_data request) = Some payload
         /\ b64decode payload true = inr decoded_data
         /\ decoded_data <> []
         /\ In v detectable_types
         /\ (forall w', detect_file_type payload w' = (inr v, say ld w'))
         /\ (forall w', classify (fst v) w'
                        = (inr (status, confidence_score, reason), say lc w'))
         /\ In (status, confidence_score, reason) service_verdicts
         /\ process_document request w =
            match save_temp_file decoded_data record_id document_id (snd v)
                    (say lc (say ld (say (prelude ++ [LogValidationOk]) w))) with
            | (inr temp_file_path, ws) =>
                (inr (DocumentResponse.make record_id document_id status
                        confidence_score reason),
                 say [LogSending; LogStatus status; LogConfidenceScore confidence_score;
                      LogReason reason; LogFileType (fst v); LogFileExtension (snd v);
                      LogResponseFileSize (List.length decoded_data);
                      LogSavedTo temp_file_path] ws)
            | (inl e, ws) =>
                (inl (HTTPException 500 (InternalServerError (Builtin OSError))),
                 say [LogInternalError (Builtin OSError)] ws)
            end).
Proof.
  cbv zeta.
  destruct (request_payload (DocumentRequest.base64_data request)) as [payload|] eqn:Hpay.
  2:{ left. split; [reflexivity|].
      exact (data_url_without_comma_is_server_error request w Hpay). }
  destruct (b64decode payload true) as [e|decoded_data] eqn:Hdec.
  { right; left. exists payload, e. split; [reflexivity|]. split; [exact Hdec|].
    exact (process_document_undecodable request payload e w Hpay Hdec). }
  destruct decoded_data as [|b0 bs].
  { right; right; left. exists payload. split; [reflexivity|]. split; [exact Hdec|].
    exact (process_document_empty request payload w Hpay Hdec). }
  right; right; right.
  assert (b0 :: bs <> []) as Hne by discriminate.
  destruct (detect_file_type_fixed_types payload w
              (b64decode_strict_no_data_prefix _ _ Hdec)) as (v & Hv & Hin).
  destruct (detect_file_type_prints payload) as (r1 & ld & Hdet).
  unfold result in Hv. rewrite Hdet in Hv. cbn [fst] in Hv. subst r1.
  destruct (classify_prints (fst v)) as (r2 & lc & Hcls).
  pose proof (classify_run (fst v) w) as Hc.
  unfold result in Hc. rewrite Hcls in Hc. cbn [fst] in Hc.
  pose proof (proj1 (Forall_forall _ _) detectable_types_verdicts v Hin) as Hverdict.
  cbv beta in Hverdict.
  assert (exists status confidence_score reason,
             r2 = inr (status, confidence_score, reason)
             /\ In (status, confidence_score, reason) service_verdicts)
    as (status & score & reason & -> & Hsv).
  { rewrite Hc. destruct (dict_get accepted_types (fst v)) as [[c r]|]; eauto. }
  exists payload, (b0 :: bs), v, status, score, reason, ld, lc.
  repeat (split; [first [reflexivity | assumption]|]).
  destruct v as [mime_type file_extension]. cbn [fst snd] in *.
  rewrite (process_document_run _ _ _ w _ _ _ _ _ _ _ Hpay Hdec Hne Hdet Hcls).
  cbn [app].
  destruct (save_temp_file _ _ _ _ _) as [[e|temp_file_path] ws] eqn:Hsave;
    [|reflexivity].
  destruct (save_temp_file_raises _ _ _ _ _ _ _ Hsave) as (-> & _). reflexivity.
Qed.

Lemma files_say (ls : list log_line) (w : World) : files (say ls w) = files w.
Proof. reflexivity. Qed.

Lemma draws_say (ls : list log_line) (w : World) : draws (say ls w) = draws w.
Proof. reflexivity. Qed.



(** X2.  A response of [process_document] carries the two identifiers of the
    request unchanged and one of eleven verdicts: the table row of a type the
    detector can produce from bytes (png, jpeg, gif, pdf, docx, xml, json,
    html, plain text) or the rejection of [application/x-httpd-php] or
    [application/octet-stream].  The rows for doc, xls, xlsx, ppt, pptx and
    csv never answer a request. *)
Theorem process_document_response (request : DocumentRequest.t) (w w' : World)
    (response : DocumentResponse.t) :
  process_document request w = (inr response, w') ->
  DocumentResponse.record_id response = DocumentRequest.record_id request
  /\ DocumentResponse.document_id response = DocumentRequest.document_id request
  /\ In (DocumentResponse.status response, DocumentResponse.confidence_score response,
         DocumentResponse.reason response) service_verdicts.
Proof.
  intros Hrun.
  destruct (process_document_outcome request w)
    as [(Hpay & H)|[(p & err & Hpay & Hdec & H)|[(p & Hpay & Hdec & H)|
        (p & d & v & st & sc & rs & ld & lc & Hpay & Hdec & Hne & _ & _ & _ & Hsv & H)]]];
    rewrite H in Hrun; try discriminate.
  destruct (save_temp_file _ _ _ _ _) as [[e0|path] ws]; [discriminate|].
  injection Hrun as <- _. cbn. auto.
Qed.

(** A JSON document: the identifiers come back and the verdict is the JSON
    row. *)
Lemma process_document_response_witness :
  exists response w',
    process_document
      (DocumentRequest.make (IdInt 7) (IdStr (lit "doc-1")) (lit "eyJhIjoxfQ=="))
      world0 = (inr response, w')
    /\ DocumentResponse.record_id response = IdInt 7
    /\ DocumentResponse.document_id response = IdStr (lit "doc-1")
    /\ In (DocumentResponse.status response, DocumentResponse.confidence_score response,
           DocumentResponse.reason response) service_verdicts.
Proof.
  destruct (process_document
              (DocumentRequest.make (IdInt 7) (IdStr (lit "doc-1")) (lit "eyJhIjoxfQ=="))
              world0) as [[e|response] w'] eqn:H.
  - vm_compute in H. discriminate.
  - exists response, w'. split; [reflexivity|].
    exact (process_document_response _ _ _ _ H).
Defined.



(* ===================================================================== *)
(** ** The data-URL header in the service *)
(* ===================================================================== *)

Lemma split_max_zero (sep : Z) (s : str) : split_max sep 0 s = [s].
Proof. destruct s; reflexivity. Qed.

(** [split(sep, 1)] cuts at the first separator. *)
Lemma split_max_first (sep : Z) (a b : str) :
  contains sep a = false -> split_max sep 1 (a ++ sep :: b) = [a; b].
Proof.
  induction a as [|x a IH]; intros H.
  - cbn. rewrite Z.eqb_refl. now rewrite split_max_zero.
  - unfold contains in H. cbn in H. apply orb_false_iff in H as [Hx Ha].
    cbn [app split_max]. rewrite Z.eqb_sym, Hx.
    unfold contains in IH. now rewrite (IH Ha).
Qed.

Lemma split_max_no_sep (sep : Z) (n : nat) (s : str) :
  contains sep s = false -> split_max sep n s = [s].
Proof.
  revert n; induction s as [|x s IH]; intros n H; [reflexivity|].
  unfold contains in H. cbn in H. apply orb_false_iff in H as [Hx Hs].
  cbn [split_max]. destruct n; [reflexivity|].
  rewrite Z.eqb_sym, Hx. unfold contains in IH. now rewrite (IH _ Hs).
Qed.

Lemma request_payload_plain (payload : str) :
  startswith payload (lit "data:") = false -> request_payload payload = Some payload.
Proof. intros H. unfold request_payload. now rewrite H. Qed.

Lemma request_payload_data_url (header payload : str) :
  contains (chr ",") header = false ->
  request_payload (lit "data:" ++ header ++ chr "," :: payload) = Some payload.
Proof.
  intros H. unfold request_payload.
  replace (startswith (lit "data:" ++ header ++ chr "," :: payload) (lit "data:"))
    with true by (vm_compute; reflexivity).
  rewrite app_assoc, split_max_first.
  - reflexivity.
  - unfold contains. rewrite existsb_app. unfold contains in H. rewrite H.
    vm_compute. reflexivity.
Qed.

(** Two requests with the same identifiers and the same payload run alike. *)
Lemma process_document_same_payload (record_id document_id : ident)
    (base64_data1 base64_data2 payload : str) (w : World) :
  request_payload base64_data1 = Some payload ->
  request_payload base64_data2 = Some payload ->
  process_document (DocumentRequest.make record_id document_id base64_data1) w
  = process_document (DocumentRequest.make record_id document_id base64_data2) w.
Proof.
  intros H1 H2.
  unfold process_document, try_except.
  cbn [DocumentRequest.record_id DocumentRequest.document_id DocumentRequest.base64_data].
  do 3 run_print.
  rewrite (bind_run_ok _ _ _ _ _ (process_document_payload _ _ _ H1)).
  do 3 run_print.
  rewrite (bind_run_ok _ _ _ _ _ (process_document_payload _ _ _ H2)).
  reflexivity.
Qed.

(** X4.  [process_document] ignores the header of a data URL altogether:
    whatever stands between [data:] and the first comma, the run is the run
    on the bare payload - same response or error, same file, same output. *)
Theorem process_document_ignores_header (record_id document_id : ident)
    (header payload : str) (w : World) :
  contains (chr ",") header = false ->
  startswith payload (lit "data:") = false ->
  process_document
    (DocumentRequest.make record_id document_id
       (lit "data:" ++ header ++ lit "," ++ payload)) w
  = process_document (DocumentRequest.make record_id document_id payload) w.
Proof.
  intros Hh Hp.
  apply (process_document_same_payload _ _ _ _ payload).
  - exact (request_payload_data_url _ _ Hh).
  - exact (request_payload_plain _ Hp).
Qed.

(** A PDF sent as [data:image/png;base64,...] and sent bare. *)
Lemma process_document_ignores_header_witness :
  process_document
    (DocumentRequest.make (IdInt 1) (IdInt 2) (lit "data:image/png;base64,JVBERi0xLjQ="))
    world0
  = process_document (DocumentRequest.make (IdInt 1) (IdInt 2) (lit "JVBERi0xLjQ=")) world0.
Proof.
  exact (process_document_ignores_header (IdInt 1) (IdInt 2) (lit "image/png;base64")
           (lit "JVBERi0xLjQ=") world0 eq_refl eq_refl).
Defined.

(* ===================================================================== *)
(** ** More on the detector *)
(* ===================================================================== *)

(** X5.  Every signature of the table is recognised: for input without a
    data-URL prefix whose decoded bytes start with a signature, the result
    is the table's entry for it (the later, [docx] one for the three ZIP
    signatures).  No two signatures fit the same bytes, so the order of the
    table never matters. *)
Theorem every_signature_is_detected (base64_data : str) (decoded_data signature : bytes)
    (v : str * str) (w : World) :
  startswith base64_data (lit "data:") = false ->
  b64decode base64_data false = inr decoded_data ->
  In (signature, v) (dict_items file_signatures) ->
  startswith decoded_data signature = true ->
  result (detect_file_type base64_data) w = inr v.
Proof.
  intros Hdata Hdec Hin Hstart.
  rewrite (detect_file_type_decoded _ _ _ Hdata Hdec).
  rewrite file_signatures_items in Hin |- *.
  destruct (startswith_split _ _ Hstart) as [rest ->].
  repeat (destruct Hin as [[= <- <-]|Hin]; [vm_compute; reflexivity|]).
  contradiction.
Qed.

(** A PNG header, a JPEG header and a GIF89a header. *)
Lemma every_signature_is_detected_witness :
  result (detect_file_type (lit "iVBORw0KGgoAAAAN")) world0 = inr (lit "image/png", lit "png")
  /\ result (detect_file_type (lit "/9j/4AAQ")) world0 = inr (lit "image/jpeg", lit "jpg")
  /\ result (detect_file_type (lit "R0lGODlhAQABAA==")) world0
     = inr (lit "image/gif", lit "gif").
Proof.
  split; [|split].
  - apply (every_signature_is_detected (lit "iVBORw0KGgoAAAAN")
             [137; 80; 78; 71; 13; 10; 26; 10; 0; 0; 0; 13]
             [137; 80; 78; 71; 13; 10; 26; 10]); try reflexivity.
    vm_compute. auto.
  - apply (every_signature_is_detected (lit "/9j/4AAQ")
             [255; 216; 255; 224; 0; 16] [255; 216; 255]); try reflexivity.
    vm_compute. auto.
  - apply (every_signature_is_detected (lit "R0lGODlhAQABAA==")
             [71; 73; 70; 56; 57; 97; 1; 0; 1; 0] [71; 73; 70; 56; 57; 97]);
      try reflexivity.
    vm_compute. auto 6.
Defined.

Lemma startswith_firstn (prefix : list Z) :
  forall (n : nat) (s : list Z),
    (List.length prefix <= n)%nat ->
    startswith (firstn n s) prefix = startswith s prefix.
Proof.
  induction prefix as [|p prefix IH]; intros n s Hn; [reflexivity|].
  destruct n as [|n]; [simpl in Hn; lia|].
  destruct s as [|c s]; [reflexivity|].
  cbn [firstn startswith]. rewrite IH by (simpl in Hn; lia). reflexivity.
Qed.

Lemma find_ext_in {A} (f g : A -> bool) (l : list A) :
  (forall x, In x l -> f x = g x) -> find f l = find g l.
Proof.
  induction l as [|x l IH]; intros H; [reflexivity|].
  cbn [find]. rewrite (H x (or_introl eq_refl)).
  rewrite IH by (intros y Hy; apply H; now right). reflexivity.
Qed.

Lemma file_signatures_short :
  Forall (fun item : bytes * (str * str) => (List.length (fst item) <= 100)%nat)
         (dict_items file_signatures).
Proof. rewrite file_signatures_items. repeat constructor; cbn; lia. Qed.

(** X6.  The detector looks at the first hundred decoded bytes and at nothing
    else: two inputs without a data-URL prefix whose decoded bytes agree on
    the first hundred get the same result. *)
Theorem detect_file_type_first_hundred_bytes (base64_data1 base64_data2 : str)
    (decoded1 decoded2 : bytes) (w : World) :
  startswith base64_data1 (lit "data:") = false ->
  startswith base64_data2 (lit "data:") = false ->
  b64decode base64_data1 false = inr decoded1 ->
  b64decode base64_data2 false = inr decoded2 ->
  firstn 100 decoded1 = firstn 100 decoded2 ->
  result (detect_file_type base64_data1) w = result (detect_file_type base64_data2) w.
Proof.
  intros Hd1 Hd2 Hdec1 Hdec2 Hfirst.
  rewrite (detect_file_type_decoded _ _ _ Hd1 Hdec1).
  rewrite (detect_file_type_decoded _ _ _ Hd2 Hdec2).
  rewrite (find_ext_in (fun item => startswith decoded1 (fst item))
             (fun item => startswith decoded2 (fst item))).
  2:{ intros item Hin.
      pose proof (proj1 (Forall_forall _ _) file_signatures_short item Hin) as Hlen.
      cbv beta in Hlen.
      rewrite <- (startswith_firstn (fst item) 100 decoded1 Hlen).
      rewrite <- (startswith_firstn (fst item) 100 decoded2 Hlen).
      now rewrite Hfirst. }
  destruct (find _ _) as [[sig v]|]; [reflexivity|].
  rewrite Hfirst.
  assert ((4 <=? List.length decoded1)%nat = (4 <=? List.length decoded2)%nat) as ->.
  { pose proof (f_equal (@List.length Z) Hfirst) as Hl.
    rewrite !length_firstn in Hl.
    destruct (Nat.leb_spec 4 (List.length decoded1));
      destruct (Nat.leb_spec 4 (List.length decoded2)); try reflexivity; lia. }
  reflexivity.
Qed.

(** The same JSON with and without a blank in the base64 text. *)
Lemma detect_file_type_first_hundred_bytes_witness :
  result (detect_file_type (lit "eyJh IjoxfQ==")) world0
  = result (detect_file_type (lit "eyJhIjoxfQ==")) world0.
Proof.
  exact (detect_file_type_first_hundred_bytes (lit "eyJh IjoxfQ==") (lit "eyJhIjoxfQ==")
           [123; 34; 97; 34; 58; 49; 125] [123; 34; 97; 34; 58; 49; 125] world0
           eq_refl eq_refl eq_refl eq_refl eq_refl).
Defined.

(** X7.  When the decoded bytes themselves start with one of the text
    prefixes, that row of the rules decides (given four bytes, no signature
    and no data-URL prefix): ASCII bytes pass through the lenient decoder
    unchanged. *)
Theorem text_prefix_in_bytes (base64_data : str) (decoded_data : bytes)
    (prefixes : list str) (verdict : str * str) (prefix : str) (w : World) :
  startswith base64_data (lit "data:") = false ->
  b64decode base64_data false = inr decoded_data ->
  matches_signature decoded_data = false ->
  (4 <= List.length decoded_data)%nat ->
  In (prefixes, verdict) text_rules ->
  In prefix prefixes ->
  startswith decoded_data prefix = true ->
  result (detect_file_type base64_data) w = inr verdict.
Proof.
  intros Hdata Hdec Hsig Hlen Hrule Hp Hstart.
  rewrite (detect_file_type_text_stage _ _ _ Hdata Hdec Hsig).
  apply Nat.leb_le in Hlen. rewrite Hlen. clear Hlen Hdec Hsig.
  destruct (startswith_split _ _ Hstart) as [rest ->]. clear Hstart.
  assert (forall p verdict',
             (forall tail, first_match text_rules (utf8_decode_ignore (p ++ tail))
                             generic_binary = verdict') ->
             (List.length p <= 100)%nat ->
             first_match text_rules
               (utf8_decode_ignore (firstn 100 (p ++ rest))) generic_binary = verdict')
    as Hcut.
  { intros p v' Hv Hl. rewrite firstn_app, (firstn_all2 (n := 100)) by exact Hl.
    apply Hv. }
  unfold text_rules in Hrule. cbn [In] in Hrule.
  destruct Hrule as [H|[H|[H|[H|[H|[]]]]]]; injection H as <- <-; cbn [In] in Hp;
    repeat (destruct Hp as [<-|Hp]; [|try contradiction]);
    apply f_equal; apply Hcut; solve [intros tail; vm_compute; reflexivity|cbn; lia].
Qed.

Lemma text_prefix_in_bytes_witness :
  result (detect_file_type (lit "PD94bWwgew==")) world0
  = inr (lit "application/xml", lit "xml").
Proof.
  apply (text_prefix_in_bytes (lit "PD94bWwgew==") [60; 63; 120; 109; 108; 32; 123]
           [lit "<?xml"] (lit "application/xml", lit "xml") (lit "<?xml") world0);
    try reflexivity.
  - cbn. lia.
  - now left.
  - now left.
Defined.

(** X8.  For input without a [data:] prefix: a first decoded byte that is
    ASCII and none of [<], [{], [[], [#] ends the matter, and without a
    signature the result is the generic binary type.  So JSON or XML behind
    a blank or a line feed is not recognised. *)
Theorem other_first_byte_is_generic (base64_data : str) (c : Z) (rest : bytes)
    (w : World) :
  startswith base64_data (lit "data:") = false ->
  b64decode base64_data false = inr (c :: rest) ->
  matches_signature (c :: rest) = false ->
  c < 128 ->
  c <> 60 -> c <> 123 -> c <> 91 -> c <> 35 ->
  result (detect_file_type base64_data) w = inr (lit "application/octet-stream", lit "bin").
Proof.
  intros Hdata Hdec Hsig Hc H1 H2 H3 H4.
  rewrite (detect_file_type_text_stage _ _ _ Hdata Hdec Hsig).
  destruct (4 <=? List.length (c :: rest))%nat; [|reflexivity].
  change (firstn 100 (c :: rest)) with (c :: firstn 99 rest).
  cbn [utf8_decode_ignore].
  apply Z.ltb_lt in Hc. rewrite Hc.
  generalize (utf8_decode_ignore (firstn 99 rest)). intros text.
  apply Z.eqb_neq in H1, H2, H3, H4.
  unfold text_rules, first_match, existsb.
  change (lit "<?xml") with (60 :: lit "?xml").
  change (lit "{") with [123]. change (lit "[") with [91].
  change (lit "<html") with (60 :: lit "html").
  change (lit "<!DOCTYPE") with (60 :: lit "!DOCTYPE").
  change (lit "<?php") with (60 :: lit "?php").
  change (lit "#!/") with (35 :: lit "!/").
  cbn [startswith]. rewrite H1, H2, H3, H4. reflexivity.
Qed.

(** [ {"a":1}] with a leading blank. *)
Lemma other_first_byte_is_generic_witness :
  result (detect_file_type (lit "IHsiYSI6MX0=")) world0
  = inr (lit "application/octet-stream", lit "bin").
Proof.
  apply (other_first_byte_is_generic (lit "IHsiYSI6MX0=") 32
           [123; 34; 97; 34; 58; 49; 125] world0); try reflexivity; lia.
Defined.

(* ===================================================================== *)
(** ** Input with a data-URL prefix *)
(* ===================================================================== *)

Lemma split_nonempty (sep : Z) (s : str) : exists w ws, split sep s = w :: ws.
Proof.
  induction s as [|c s (w & ws & IH)]; cbn [split]; [eauto|].
  destruct (c =? sep); [eauto|]. rewrite IH. eauto.
Qed.

Lemma contains_split (sep : Z) (s : str) :
  contains sep s = true ->
  exists a b, s = a ++ sep :: b /\ contains sep a = false.
Proof.
  unfold contains. induction s as [|c s IH]; cbn [existsb]; [discriminate|].
  destruct (sep =? c) eqn:E.
  - intros _. apply Z.eqb_eq in E. subst c. now exists [], s.
  - cbn [orb]. intros H. destruct (IH H) as (a & b & -> & Ha).
    exists (c :: a), b. split; [reflexivity|]. cbn [existsb]. now rewrite E, Ha.
Qed.

(** The header stage finds nothing in a [data:] string without a comma: the
    unpacking of line 49 fails and the bare [except] swallows it. *)
Lemma detect_from_data_url_no_comma (base64_data : str) (w : World) :
  startswith base64_data (lit "data:") = true ->
  contains (chr ",") base64_data = false ->
  detect_from_data_url base64_data w = (inr None, w).
Proof.
  intros Hdata Hcomma. unfold detect_from_data_url. rewrite Hdata.
  unfold try_except, bind, unpack2.
  now rewrite (split_max_no_sep _ 1 _ Hcomma).
Qed.

(** When the header stage finds nothing, signatures and text decide. *)
Lemma detect_file_type_no_header (base64_data : str) (decoded_data : bytes) (w : World) :
  (forall w', detect_from_data_url base64_data w' = (inr None, w')) ->
  b64decode base64_data false = inr decoded_data ->
  result (detect_file_type base64_data) w =
  match find (fun item => startswith decoded_data (fst item)) (dict_items file_signatures) with
  | Some (_, v) => inr v
  | None =>
      inr (if (4 <=? List.length decoded_data)%nat
           then first_match text_rules (utf8_decode_ignore (firstn 100 decoded_data))
                  generic_binary
           else generic_binary)
  end.
Proof.
  intros Hhead Hdec.
  unfold result, detect_file_type, try_except.
  unfold bind at 1. unfold lift. rewrite Hdec. cbn [ret].
  unfold bind at 1. cbn [print].
  unfold or_else at 1. rewrite (bind_run_ok _ _ _ _ _ (Hhead _)).
  unfold or_else at 1.
  unfold bind at 1. rewrite detect_from_signature_run.
  destruct (find _ _) as [[sig [mime_type ext]]|]; [reflexivity|].
  match goal with
  | |- context [or_else ?b ?r ?w'] =>
      pose proof (detect_from_text_run decoded_data w') as T;
      unfold result in T; destruct (or_else b r w') as [[e|v] w'']
  end; cbn [fst] in T |- *; [discriminate|exact T].
Qed.

(** The bytes a [data:] string decodes to fit no signature and no text
    prefix: they start with the letter [u]. *)
Lemma decoded_data_prefix_is_generic (rest : bytes) :
  match find (fun item => startswith (117 :: rest) (fst item)) (dict_items file_signatures) with
  | Some (_, v) => inr v
  | None =>
      inr (if (4 <=? List.length (117%Z :: rest))%nat
           then first_match text_rules (utf8_decode_ignore (firstn 100 (117 :: rest)))
                  generic_binary
           else generic_binary)
  end = (inr generic_binary : exn + str * str).
Proof.
  rewrite file_signatures_items.
  destruct (4 <=? List.length (117%Z :: rest))%nat; [|vm_compute; reflexivity].
  change (firstn 100 (117 :: rest)) with (117 :: firstn 99 rest).
  generalize (firstn 99 rest). intros tail. vm_compute. reflexivity.
Qed.

(** The header of a [data:] string with a comma always parses. *)
Lemma data_url_header_parses (base64_data : str) :
  startswith base64_data (lit "data:") = true ->
  contains (chr ",") base64_data = true ->
  exists header payload part mime_type rest,
    split_max (chr ",") 1 base64_data = [header; payload]
    /\ nth_error (split (chr ":") header) 1 = Some part
    /\ split (chr ";") part = mime_type :: rest
    /\ data_url_mime base64_data = mime_type.
Proof.
  intros Hdata Hcomma.
  destruct (contains_split _ _ Hcomma) as (a & b & -> & Ha).
  assert (exists a', a = lit "data:" ++ a') as [a' ->].
  { unfold contains in Ha.
    destruct a as [|x1 [|x2 [|x3 [|x4 [|x5 a']]]]]; cbn in Hdata, Ha;
      repeat match type of Hdata with
             | context [?x =? ?y] =>
                 let E := fresh in destruct (x =? y) eqn:E;
                 [apply Z.eqb_eq in E; subst|]; cbn in Hdata, Ha
             end; try discriminate.
    now exists a'. }
  destruct (split_nonempty (chr ":") a') as (part & more & Hpart).
  destruct (split_nonempty (chr ";") part) as (mime_type & rest & Hmime).
  exists (lit "data:" ++ a'), b, part, mime_type, rest.
  assert (split (chr ":") (lit "data:" ++ a') = lit "data" :: part :: more) as Hcolon.
  { change (lit "data:" ++ a') with (100 :: 97 :: 116 :: 97 :: 58 :: a').
    cbn [split]. rewrite Hpart. reflexivity. }
  split; [exact (split_max_first _ _ _ Ha)|].
  split; [now rewrite Hcolon|]. split; [exact Hmime|].
  unfold data_url_mime. rewrite (split_max_first _ _ _ Ha). cbn [hd].
  rewrite Hcolon. cbn [nth]. rewrite Hmime. reflexivity.
Qed.

(** X9.  Input that starts with [data:] never reaches a verdict by signature
    or text.  If the whole string decodes as lenient base64 and holds a
    comma, the result is the mime type written in the header (the text after
    its first colon, up to the next colon or semicolon) with the extension
    after its last slash, or [bin] without a slash; in every other case -
    decoding error, or no comma - it is the generic binary type. *)
Theorem data_url_input (base64_data : str) (w : World) :
  startswith base64_data (lit "data:") = true ->
  result (detect_file_type base64_data) w =
  inr (match b64decode base64_data false with
       | inl _ => (lit "application/octet-stream", lit "bin")
       | inr _ =>
           if contains (chr ",") base64_data
           then (data_url_mime base64_data,
                 extension_of_mime (data_url_mime base64_data))
           else (lit "application/octet-stream", lit "bin")
       end).
Proof.
  intros Hdata.
  destruct (b64decode base64_data false) as [e|decoded_data] eqn:Hdec.
  - unfold result. now rewrite (detect_file_type_undecodable _ _ _ Hdec).
  - destruct (contains (chr ",") base64_data) eqn:Hcomma.
    + destruct (data_url_header_parses _ Hdata Hcomma)
        as (header & payload & part & mime_type & rest & Hsplit & Hpart & Hmime & ->).
      exact (data_url_header_decides _ _ _ _ _ _ _ w Hdata Hdec Hsplit Hpart Hmime).
    + rewrite (detect_file_type_no_header _ _ w
                 (fun w' => detect_from_data_url_no_comma _ w' Hdata Hcomma) Hdec).
      destruct (data_prefix_decodes_to_u _ _ Hdata Hdec) as [rest ->].
      apply decoded_data_prefix_is_generic.
Qed.

(** A header without a comma that happens to decode, a data URL that
    decodes as a whole, and the badly padded data URL of a PNG. *)
Lemma data_url_input_witness :
  result (detect_file_type (lit "data:text/html;base64x")) world0
  = inr (lit "application/octet-stream", lit "bin")
  /\ result (detect_file_type (lit "data:text/html;base64,aGkh=")) world0
     = inr (lit "text/html", lit "html")
  /\ result (detect_file_type (lit "data:image/png;base64,iVBORw0KGgo=")) world0
     = inr (lit "application/octet-stream", lit "bin").
Proof.
  split; [|split].
  - exact (data_url_input (lit "data:text/html;base64x") world0 eq_refl).
  - exact (data_url_input (lit "data:text/html;base64,aGkh=") world0 eq_refl).
  - exact (data_url_input (lit "data:image/png;base64,iVBORw0KGgo=") world0 eq_refl).
Defined.

(** Where an extension comes back empty: [last] of a split is empty exactly
    for the empty string and for a string that ends in the separator. *)
Lemma split_single (sep : Z) (s w : str) :
  split sep s = [w] -> w = s /\ contains sep s = false.
Proof.
  revert w. unfold contains.
  induction s as [|c s IH]; cbn [split existsb]; intros w H.
  - injection H as <-. now split.
  - destruct (c =? sep) eqn:E.
    + destruct (split_nonempty sep s) as (w' & ws & Hs). rewrite Hs in H. discriminate.
    + destruct (split sep s) as [|w' ws] eqn:Hs; [destruct (split_nonempty sep s) as (? & ? & ?); congruence|].
      injection H as <- ->. destruct (IH w' eq_refl) as [-> Hc].
      split; [reflexivity|]. rewrite Z.eqb_sym, E. exact Hc.
Qed.

Lemma last_not_separator (sep : Z) (s : str) :
  contains sep s = false -> s <> [] -> last s 0 <> sep.
Proof.
  unfold contains. induction s as [|c s IH]; [congruence|].
  cbn [existsb]. intros H _. apply orb_false_elim in H as [Hc Hs].
  destruct s as [|c' s].
  - cbn [last]. apply Z.eqb_neq in Hc. congruence.
  - change (last (c :: c' :: s) 0) with (last (c' :: s) 0). apply IH; [exact Hs|discriminate].
Qed.

Lemma last_split_empty (sep : Z) (s : str) :
  last (split sep s) [] = [] <-> s = [] \/ last s 0 = sep.
Proof.
  induction s as [|c s IH].
  - cbn. tauto.
  - cbn [split]. destruct (split_nonempty sep s) as (w & ws & Hs).
    destruct (c =? sep) eqn:E.
    + apply Z.eqb_eq in E. subst c. rewrite Hs in *.
      change (last ([] :: w :: ws) []) with (last (w :: ws) ([] : str)).
      rewrite IH. destruct s as [|c' s].
      * cbn. tauto.
      * change (last (sep :: c' :: s) 0) with (last (c' :: s) 0).
        split; [intros [H|H]; [discriminate|now right]|intros [H|H]; [discriminate|now right]].
    + apply Z.eqb_neq in E. rewrite Hs in *. destruct ws as [|w' ws].
      * destruct (split_single _ _ _ Hs) as [-> Hc]. cbn [last].
        split; [discriminate|]. intros [H|H]; [discriminate|].
        destruct s as [|c' s]; [cbn in H; congruence|].
        change (last (c :: c' :: s) 0) with (last (c' :: s) 0) in H.
        now apply (last_not_separator sep (c' :: s)) in H.
      * change (last ((c :: w) :: w' :: ws) []) with (last (w :: w' :: ws) ([] : str)).
        rewrite IH. destruct s as [|c' s]; [discriminate|].
        change (last (c :: c' :: s) 0) with (last (c' :: s) 0).
        split; [intros [H|H]; [discriminate|now right]|intros [H|H]; [discriminate|now right]].
Qed.

Lemma extension_of_mime_empty (mime_type : str) :
  extension_of_mime mime_type = [] <-> mime_type <> [] /\ last mime_type 0 = chr "/".
Proof.
  unfold extension_of_mime. destruct (contains (chr "/") mime_type) eqn:Hc.
  - rewrite last_split_empty. split.
    + intros [->|H]; [discriminate|]. split; [|exact H]. intros ->. discriminate.
    + intros [_ H]. now right.
  - split; [discriminate|]. intros [Hne H].
    now apply (last_not_separator _ _ Hc Hne) in H.
Qed.

(** The result for input with a [data:] prefix, in terms of
    [header_decides]. *)
Lemma detect_file_type_data_url (base64_data : str) (w : World) :
  startswith base64_data (lit "data:") = true ->
  result (detect_file_type base64_data) w =
  inr (if header_decides base64_data
       then (data_url_mime base64_data, extension_of_mime (data_url_mime base64_data))
       else generic_binary).
Proof.
  intros Hdata. unfold header_decides. rewrite Hdata. cbn [andb].
  destruct (b64decode base64_data false) as [e|decoded_data] eqn:Hdec.
  - unfold result. now rewrite (detect_file_type_undecodable _ _ _ Hdec).
  - cbn [andb]. destruct (contains (chr ",") base64_data) eqn:Hcomma.
    + destruct (data_url_header_parses _ Hdata Hcomma)
        as (header & payload & part & mime_type & rest & Hsplit & Hpart & Hmime & ->).
      exact (data_url_header_decides _ _ _ _ _ _ _ w Hdata Hdec Hsplit Hpart Hmime).
    + rewrite (detect_file_type_no_header _ _ w
                 (fun w' => detect_from_data_url_no_comma _ w' Hdata Hcomma) Hdec).
      destruct (data_prefix_decodes_to_u _ _ Hdata Hdec) as [rest ->].
      apply decoded_data_prefix_is_generic.
Qed.

(** C3, as the code has it.  For every input string [detect_file_type]
    returns a pair and never raises, and input that does not decode gets the
    generic binary type.  The two fields are non-empty with exactly these
    exceptions: when the header of a data URL decides (the string starts
    with [data:], decodes as a whole and holds a comma), the mime type is
    copied from the header as it is written there, so it is empty exactly
    when the header's is, and the extension, the text after its last slash,
    is empty exactly when the header's mime type ends in a slash. *)
Theorem detect_file_type_total (base64_data : str) (w : World) :
  exists mime_type ext,
    result (detect_file_type base64_data) w = inr (mime_type, ext)
    /\ (forall e, b64decode base64_data false = inl e ->
                  (mime_type, ext) = (lit "application/octet-stream", lit "bin"))
    /\ (header_decides base64_data = true ->
        mime_type = data_url_mime base64_data /\ ext = extension_of_mime mime_type)
    /\ (mime_type = [] <->
        header_decides base64_data = true /\ data_url_mime base64_data = [])
    /\ (ext = [] <->
        header_decides base64_data = true
        /\ data_url_mime base64_data <> []
        /\ last (data_url_mime base64_data) 0 = chr "/").
Proof.
  destruct (detect_file_type_returns base64_data w) as (m & x & Hrun).
  exists m, x. split; [exact Hrun|]. split.
  { intros e He. unfold result in Hrun.
    rewrite (detect_file_type_undecodable _ _ _ He) in Hrun.
    cbn [fst] in Hrun. injection Hrun as <- <-. reflexivity. }
  destruct (startswith base64_data (lit "data:")) eqn:Hdata.
  - rewrite (detect_file_type_data_url _ w Hdata) in Hrun.
    destruct (header_decides base64_data).
    + injection Hrun as <- <-. split; [now split|]. split; [tauto|].
      rewrite extension_of_mime_empty. tauto.
    + injection Hrun as <- <-.
      split; [discriminate|].
      split; (split; [discriminate|intros [H _]; discriminate]).
  - assert (header_decides base64_data = false) as Hno
        by (unfold header_decides; now rewrite Hdata).
    rewrite Hno.
    destruct (detect_file_type_fixed_types base64_data w Hdata) as (v & Hv & Hin).
    rewrite Hrun in Hv. injection Hv as <-.
    destruct (proj1 (Forall_forall _ _) detectable_types_nonempty _ Hin) as [Hm Hx].
    cbn [fst snd] in Hm, Hx.
    split; [discriminate|].
    split; (split; [congruence|intros [H _]; discriminate]).
Qed.

(** A single base64 character, which cannot be decoded; a GIF header; a
    data URL whose header decides; and one whose mime type ends in a
    slash. *)
Lemma detect_file_type_total_witness :
  result (detect_file_type (lit "A")) world0
  = inr (lit "application/octet-stream", lit "bin")
  /\ (exists mime_type ext,
        result (detect_file_type (lit "R0lGODlhAQABAA==")) world0 = inr (mime_type, ext)
        /\ mime_type <> [] /\ ext <> [])
  /\ result (detect_file_type (lit "data:text/html;base64,aGkh=")) world0
     = inr (lit "text/html", lit "html")
  /\ exists mime_type,
       result (detect_file_type (lit "data:image/;base64,")) world0 = inr (mime_type, [])
       /\ mime_type <> [].
Proof.
  split; [|split; [|split]].
  - destruct (detect_file_type_total (lit "A") world0) as (m & x & Hrun & Hbad & _).
    rewrite Hrun. f_equal.
    apply (Hbad (BinasciiError (InvalidLength 1))). vm_compute. reflexivity.
  - destruct (detect_file_type_total (lit "R0lGODlhAQABAA==") world0)
      as (m & x & Hrun & _ & _ & Hm & Hx).
    exists m, x. split; [exact Hrun|]. split.
    + intros H. apply Hm in H as [H _]. vm_compute in H. discriminate.
    + intros H. apply Hx in H as [H _]. vm_compute in H. discriminate.
  - destruct (detect_file_type_total (lit "data:text/html;base64,aGkh=") world0)
      as (m & x & Hrun & _ & Hhead & _).
    rewrite Hrun. destruct (Hhead eq_refl) as [-> ->]. vm_compute. reflexivity.
  - destruct (detect_file_type_total (lit "data:image/;base64,") world0)
      as (m & x & Hrun & _ & _ & Hm & Hx).
    exists m. split.
    + rewrite Hrun. f_equal. f_equal. apply Hx.
      split; [vm_compute; reflexivity|]. split; [vm_compute; discriminate|].
      vm_compute. reflexivity.
    + intros H. apply Hm in H as [_ H]. vm_compute in H. discriminate.
Defined.

(* ===================================================================== *)
(** ** Scores and saved files *)
(* ===================================================================== *)

(** X10.  The confidence score of an accepted verdict lies between 0.70 and
    0.95, that of a rejected verdict is 0.3, and there is no third status:
    every accepted score is above every rejected one, and all are within
    [0, 1]. *)
Theorem classify_confidence (mime_type status reason : str) (confidence_score : float)
    (w : World) :
  result (classify mime_type) w = inr (status, confidence_score, reason) ->
  (status = lit "accepted"
   /\ PrimFloat.leb 0.70 confidence_score = true
   /\ PrimFloat.leb confidence_score 0.95 = true)
  \/ (status = lit "rejected" /\ confidence_score = 0.3%float).
Proof.
  rewrite classify_run.
  destruct (dict_get accepted_types mime_type) as [[c r]|] eqn:G.
  - intros [= <- <- <-]. left. split; [reflexivity|].
    apply dict_get_Some_In in G. vm_compute in G.
    repeat (destruct G as [[= _ <- _]|G]; [split; vm_compute; reflexivity|]).
    contradiction.
  - intros [= <- <- <-]. right. split; reflexivity.
Qed.

Lemma classify_confidence_witness :
  (PrimFloat.leb 0.70 0.75 = true /\ PrimFloat.leb 0.75 0.95 = true)
  /\ result (classify (lit "text/csv")) world0
     = inr (lit "accepted", 0.75%float, lit "CSV file - Accepted").
Proof.
  assert (result (classify (lit "text/csv")) world0
          = inr (lit "accepted", 0.75%float, lit "CSV file - Accepted")) as H
    by (vm_compute; reflexivity).
  split; [|exact H].
  destruct (classify_confidence _ _ _ _ _ H) as [(_ & H1 & H2)|(H1 & _)].
  - now split.
  - vm_compute in H1. discriminate.
Defined.

Lemma temp_dir_shape (c : str) :
  exists x, path_join c (lit "temp_files") = x ++ lit "temp_files".
Proof.
  unfold path_join.
  replace (startswith (lit "temp_files") (lit "/")) with false by reflexivity.
  destruct (Nat.eqb (List.length c) 0); [now exists []|].
  destruct (last c 0 =? chr "/"); [now exists c|].
  exists (c ++ lit "/"). now rewrite <- app_assoc.
Qed.

Lemma path_join_temp_dir (x name : str) :
  startswith name (lit "/") = false ->
  path_join (x ++ lit "temp_files") name = (x ++ lit "temp_files") ++ lit "/" ++ name.
Proof.
  intros H. unfold path_join. rewrite H.
  replace (Nat.eqb (List.length (x ++ lit "temp_files")) 0) with false.
  2:{ symmetry. apply Nat.eqb_neq. rewrite length_app. cbn. lia. }
  replace (last (x ++ lit "temp_files") 0) with 115.
  2:{ change (lit "temp_files") with (lit "temp_file" ++ [115]).
      now rewrite app_assoc, last_last. }
  reflexivity.
Qed.

(** X11.  When [save_temp_file] returns, what it returns is the path
    [<temp_dir>/record_<record_id>_doc_<document_id>_<time>_<uuid8>.<ext>],
    where [<temp_dir>] is [temp_files] under the working directory and
    [<uuid8>] the first eight characters of the one uuid drawn; the bytes are
    stored under that path, and the two lines printed name the path and the
    number of bytes.  The file name is appended behind a slash whatever the
    identifiers and the extension hold: it starts with [record_], so
    [os.path.join] never takes it for an absolute path. *)
Theorem save_temp_file_effect (decoded_data : bytes) (record_id document_id : ident)
    (file_extension : str) (w w' : World) (temp_file_path : str) :
  save_temp_file decoded_data record_id document_id file_extension w
  = (inr temp_file_path, w') ->
  temp_file_path =
    path_join (cwd w) (lit "temp_files") ++ lit "/"
    ++ temp_file_name record_id document_id file_extension w
  /\ files w' = (temp_file_path, decoded_data) :: files w
  /\ draws w' = S (draws w)
  /\ stdout w' = stdout w ++ [LogFileSaved temp_file_path;
                              LogFileSize (List.length decoded_data)].
Proof.
  rewrite save_temp_file_run. cbv zeta.
  fold (temp_file_name record_id document_id file_extension w).
  destruct (temp_dir_shape (cwd w)) as [x ->].
  rewrite (path_join_temp_dir x (temp_file_name record_id document_id file_extension w))
    by reflexivity.
  destruct (refused w _); [discriminate|].
  destruct (refused w _); [discriminate|].
  intros [= <- <-]. split; [reflexivity|]. split; [reflexivity|]. split; reflexivity.
Qed.

(** Three bytes saved for record 7, document [doc-1]. *)
Lemma save_temp_file_effect_witness :
  exists w',
    save_temp_file [1; 2; 3] (IdInt 7) (IdStr (lit "doc-1")) (lit "bin") world0
    = (inr (lit "/srv/app/temp_files/record_7_doc_doc-1_20240101_120000_123e4567.bin"),
       w')
    /\ files w'
       = [(lit "/srv/app/temp_files/record_7_doc_doc-1_20240101_120000_123e4567.bin",
           [1; 2; 3])]
    /\ draws w' = 1%nat.
Proof.
  destruct (save_temp_file [1; 2; 3] (IdInt 7) (IdStr (lit "doc-1")) (lit "bin") world0)
    as [[e|path] w'] eqn:H; [vm_compute in H; discriminate|].
  exists w'.
  destruct (save_temp_file_effect _ _ _ _ _ _ _ H) as (Hpath & Hfiles & Hdraws & _).
  vm_compute in Hpath. subst path. split; [reflexivity|]. split; [exact Hfiles|exact Hdraws].
Defined.

(* ===================================================================== *)
(** ** cleanup_temp_file *)
(* ===================================================================== *)

(** The last separator of a string, if any. *)
Lemma rfind_split (c : Z) (s : str) :
  (Cleanup.rfind c s = -1 /\ contains c s = false)
  \/ (exists a b, s = a ++ c :: b /\ contains c b = false
                  /\ Cleanup.rfind c s = Z.of_nat (List.length a)).
Proof.
  unfold contains. induction s as [|x s IH]; [now left|].
  cbn [Cleanup.rfind existsb]. cbv zeta.
  destruct IH as [(Hr & Hc)|(a & b & -> & Hb & Hr)].
  - rewrite Hr. cbn [Z.leb Z.compare]. rewrite Z.eqb_sym.
    destruct (c =? x) eqn:E.
    + right. apply Z.eqb_eq in E. subst x. exists [], s. auto.
    + left. now rewrite Hc.
  - right. exists (x :: a), b. split; [reflexivity|]. split; [exact Hb|].
    rewrite Hr. destruct (0 <=? Z.of_nat (List.length a)) eqn:E.
    + cbn [List.length]. lia.
    + apply Z.leb_gt in E. lia.
Qed.

(** [rstrip] takes separators off the end and nothing else. *)
Lemma rstrip_spec (c : Z) (s : str) :
  exists k, s = Cleanup.rstrip c s ++ repeat c k.
Proof.
  induction s as [|x s (k & IH)]; [now exists 0%nat|].
  cbn [Cleanup.rstrip].
  destruct (Cleanup.rstrip c s) as [|r0 r] eqn:R.
  - destruct (x =? c) eqn:E.
    + apply Z.eqb_eq in E. subst x. exists (S k). cbn in IH |- *. now rewrite IH at 1.
    + exists k. cbn in IH |- *. now rewrite IH at 1.
  - exists k. cbn [app] in IH |- *. now rewrite IH at 1.
Qed.

Lemma rstrip_app_cons (c x : Z) (u v : str) :
  x <> c -> Cleanup.rstrip c (u ++ x :: v) = u ++ x :: Cleanup.rstrip c v.
Proof.
  intros Hx. apply Z.eqb_neq in Hx.
  induction u as [|y u IH]; cbn [app Cleanup.rstrip].
  - rewrite Hx. now destruct (Cleanup.rstrip c v).
  - rewrite IH. now destruct u.
Qed.

Lemma repeat_snoc (c : Z) (k : nat) : repeat c (S k) = repeat c k ++ [c].
Proof. induction k as [|k IH]; [reflexivity|]. cbn in IH |- *. now rewrite IH. Qed.

(** A directory name that ends in something else than a slash is the
    [dirname] of exactly the paths made of it, one or more slashes, and a
    name without a slash. *)
Lemma dirname_inv (p y : str) (x : Z) :
  x <> 47 ->
  Cleanup.dirname p = y ++ [x] ->
  exists k name, p = (y ++ [x]) ++ repeat 47 (S k) ++ name /\ contains 47 name = false.
Proof.
  intros Hx Hd. unfold Cleanup.dirname in Hd. cbv zeta in Hd.
  change (chr "/") with 47 in Hd.
  destruct (rfind_split 47 p) as [(Hr & _)|(a & b & -> & Hb & Hr)]; rewrite Hr in Hd.
  - cbn in Hd. now destruct y.
  - replace (Z.to_nat (Z.of_nat (List.length a) + 1)) with (S (List.length a)) in Hd by lia.
    rewrite firstn_app, firstn_all2 in Hd by lia.
    replace (S (List.length a) - List.length a)%nat with 1%nat in Hd by lia.
    cbn [firstn] in Hd.
    assert (forall l, l ++ [47] = y ++ [x] -> False) as Hend.
    { intros l E. apply app_inj_tail in E as [_ E]. congruence. }
    replace (Nat.eqb (List.length (a ++ [47])) 0) with false in Hd
      by (symmetry; apply Nat.eqb_neq; rewrite length_app; cbn; lia).
    cbn [negb andb] in Hd.
    destruct (forallb (Z.eqb 47) (a ++ [47])); cbn [negb] in Hd;
      [now apply Hend in Hd|].
    destruct (rstrip_spec 47 (a ++ [47])) as [k Hk]. rewrite Hd in Hk.
    destruct k as [|k].
    { cbn in Hk. rewrite app_nil_r in Hk. now apply Hend in Hk. }
    exists k, b. split; [|exact Hb].
    rewrite app_assoc, <- Hk, <- app_assoc. reflexivity.
Qed.

Lemma dirname_child (y name : str) (x : Z) :
  x <> 47 ->
  contains 47 name = false ->
  Cleanup.dirname ((y ++ [x]) ++ 47 :: name) = y ++ [x].
Proof.
  intros Hx Hn. unfold Cleanup.dirname. cbv zeta. change (chr "/") with 47.
  destruct (rfind_split 47 ((y ++ [x]) ++ 47 :: name))
    as [(_ & Hc)|(a & b & E & Hb & Hr)].
  - unfold contains in Hc. rewrite existsb_app in Hc. cbn in Hc.
    rewrite orb_true_r in Hc. discriminate.
  - assert (a = y ++ [x] /\ b = name) as [-> ->].
    { clear Hr. revert a E. generalize (y ++ [x]) as u.
      induction u as [|z u IH]; intros a E.
      - destruct a as [|z a]; cbn in E.
        + injection E as <-. auto.
        + injection E as <- ->. unfold contains in Hn. rewrite existsb_app in Hn.
          cbn in Hn. rewrite orb_true_r in Hn. discriminate.
      - destruct a as [|z' a]; cbn in E.
        + injection E as -> <-. unfold contains in Hb. rewrite existsb_app in Hb.
          cbn in Hb. rewrite orb_true_r in Hb. discriminate.
        + injection E as <- E. destruct (IH _ E) as [-> ->]. auto. }
    rewrite Hr.
    replace (Z.to_nat (Z.of_nat (List.length (y ++ [x])) + 1))
      with (S (List.length (y ++ [x]))) by lia.
    rewrite firstn_app, firstn_all2 by lia.
    replace (S (List.length (y ++ [x])) - List.length (y ++ [x]))%nat with 1%nat by lia.
    cbn [firstn].
    replace (Nat.eqb (List.length ((y ++ [x]) ++ [47])) 0) with false
      by (symmetry; apply Nat.eqb_neq; rewrite !length_app; cbn; lia).
    replace (forallb (Z.eqb 47) ((y ++ [x]) ++ [47])) with false.
    2:{ symmetry. destruct (forallb _ _) eqn:F; [|reflexivity].
        rewrite forallb_forall in F.
        assert (In x ((y ++ [x]) ++ [47])) as Hin
          by (apply in_or_app; left; apply in_or_app; right; now left).
        apply F, Z.eqb_eq in Hin. congruence. }
    cbn [negb andb].
    rewrite <- app_assoc. cbn [app].
    rewrite rstrip_app_cons by exact Hx. reflexivity.
Qed.

(** X12.  [cleanup_temp_file] answers in one of three ways, whatever the
    operating system does.  Either nothing happened and the answer is status
    500 around the handler's own 404 - the 404 is raised inside the [try] and
    caught by its [except Exception], so no client ever sees it.  Or
    [os.remove] was called, and then the path exists and is [temp_files]
    under the working directory, one or more slashes, and a name without a
    slash: the answer is status 500 around the [OSError], or the success
    message with one line printed. *)
Theorem cleanup_temp_file_behaviour (os_path_exists : str -> World -> bool)
    (os_remove : str -> World -> (py_error + unit) * World)
    (file_path : str) (s s' : Cleanup.State) (r : Cleanup.error + Cleanup.deleted) :
  Cleanup.cleanup_temp_file os_path_exists os_remove file_path s = (r, s') ->
  (r = inl (Cleanup.HTTP 500
              (Cleanup.ErrorDeletingFile (Cleanup.HTTP 404 Cleanup.NotFoundOrInvalidPath)))
   /\ s' = s)
  \/ (os_path_exists file_path (Cleanup.world s) = true
      /\ (exists k name,
             file_path = path_join (cwd (Cleanup.world s)) (lit "temp_files")
                         ++ repeat 47 (S k) ++ name
             /\ contains 47 name = false)
      /\ ((exists e w',
              os_remove file_path (Cleanup.world s) = (inl e, w')
              /\ r = inl (Cleanup.HTTP 500 (Cleanup.ErrorDeletingFile (Cleanup.OS e)))
              /\ s' = Cleanup.mkState w' (Cleanup.console s))
          \/ (exists w',
                 os_remove file_path (Cleanup.world s) = (inr tt, w')
                 /\ r = inr (Cleanup.mkDeleted (lit "File deleted successfully") file_path)
                 /\ s' = Cleanup.mkState w' (Cleanup.console s ++ [file_path])))).
Proof.
  unfold Cleanup.cleanup_temp_file. cbv zeta.
  destruct (os_path_exists file_path (Cleanup.world s)) eqn:Hex; cbn [andb].
  2:{ intros [= <- <-]. now left. }
  destruct (Py.eqb _ _) eqn:Hdir.
  2:{ intros [= <- <-]. now left. }
  intros Hrun. right. split; [reflexivity|]. split.
  - apply eqb_eq in Hdir.
    destruct (temp_dir_shape (cwd (Cleanup.world s))) as [x Hx]. rewrite Hx in Hdir |- *.
    change (lit "temp_files") with (lit "temp_file" ++ [115]) in Hdir |- *.
    rewrite app_assoc in Hdir |- *.
    apply (dirname_inv _ _ 115); [lia|exact Hdir].
  - destruct (os_remove file_path (Cleanup.world s)) as [[e|[]] w'];
      injection Hrun as <- <-; [left|right]; eauto.
Qed.

Lemma save_temp_file_path (decoded_data : bytes) (record_id document_id : ident)
    (file_extension : str) (w w' : World) (temp_file_path : str) :
  save_temp_file decoded_data record_id document_id file_extension w
  = (inr temp_file_path, w') ->
  temp_file_path =
    path_join (cwd w) (lit "temp_files") ++ 47
    :: temp_file_name record_id document_id file_extension w
  /\ cwd w' = cwd w
  /\ files w' = (temp_file_path, decoded_data) :: files w.
Proof.
  rewrite save_temp_file_run. cbv zeta.
  fold (temp_file_name record_id document_id file_extension w).
  destruct (temp_dir_shape (cwd w)) as [x ->].
  rewrite (path_join_temp_dir x (temp_file_name record_id document_id file_extension w))
    by reflexivity.
  destruct (refused w _); [discriminate|].
  destruct (refused w _); [discriminate|].
  intros [= <- <-]. auto.
Qed.

(** X13.  Save, then clean up: when the name [save_temp_file] built holds no
    slash, the path it returned passes the directory test of
    [cleanup_temp_file]; if the file is still there and [os.remove]
    succeeds, the handler answers with the success message for that path
    and prints its line. *)
Theorem save_then_cleanup (os_path_exists : str -> World -> bool)
    (os_remove : str -> World -> (py_error + unit) * World)
    (decoded_data : bytes) (record_id document_id : ident) (file_extension : str)
    (w w1 w2 : World) (temp_file_path : str) (console : list str) :
  save_temp_file decoded_data record_id document_id file_extension w
  = (inr temp_file_path, w1) ->
  contains 47 (temp_file_name record_id document_id file_extension w) = false ->
  os_path_exists temp_file_path w1 = true ->
  os_remove temp_file_path w1 = (inr tt, w2) ->
  Cleanup.cleanup_temp_file os_path_exists os_remove temp_file_path
    (Cleanup.mkState w1 console)
  = (inr (Cleanup.mkDeleted (lit "File deleted successfully") temp_file_path),
     Cleanup.mkState w2 (console ++ [temp_file_path])).
Proof.
  intros Hsave Hname Hex Hrm.
  destruct (save_temp_file_path _ _ _ _ _ _ _ Hsave) as (Hpath & Hcwd & _).
  unfold Cleanup.cleanup_temp_file.
  cbn [Cleanup.world Cleanup.console]. cbv zeta.
  rewrite Hex, Hcwd. cbn [andb].
  replace (Py.eqb (Cleanup.dirname temp_file_path) (path_join (cwd w) (lit "temp_files")))
    with true.
  - now rewrite Hrm.
  - symmetry. apply eqb_eq. rewrite Hpath.
    destruct (temp_dir_shape (cwd w)) as [x ->].
    change (lit "temp_files") with (lit "temp_file" ++ [115]).
    rewrite app_assoc. apply dirname_child; [lia|exact Hname].
Qed.

(** A file saved in [world0] and removed by the operating system that knows
    the files of the world. *)
Lemma save_then_cleanup_witness :
  exists w1 w2,
    Cleanup.cleanup_temp_file Cleanup.exists_in_world Cleanup.remove_in_world
      (lit "/srv/app/temp_files/record_7_doc_5_20240101_120000_123e4567.bin")
      (Cleanup.mkState w1 [])
    = (inr (Cleanup.mkDeleted (lit "File deleted successfully")
              (lit "/srv/app/temp_files/record_7_doc_5_20240101_120000_123e4567.bin")),
       Cleanup.mkState w2
         [lit "/srv/app/temp_files/record_7_doc_5_20240101_120000_123e4567.bin"])
    /\ files w1
       = [(lit "/srv/app/temp_files/record_7_doc_5_20240101_120000_123e4567.bin",
           [1; 2; 3])]
    /\ files w2 = [].
Proof.
  destruct (save_temp_file [1; 2; 3] (IdInt 7) (IdInt 5) (lit "bin") world0)
    as [r w1] eqn:Hsave.
  assert (r = inr (lit "/srv/app/temp_files/record_7_doc_5_20240101_120000_123e4567.bin"))
    as -> by (vm_compute in Hsave; now injection Hsave as <- _).
  destruct (Cleanup.remove_in_world
              (lit "/srv/app/temp_files/record_7_doc_5_20240101_120000_123e4567.bin") w1)
    as [u w2] eqn:Hrm.
  assert (w1 = snd (save_temp_file [1; 2; 3] (IdInt 7) (IdInt 5) (lit "bin") world0))
    as Hw1 by now rewrite Hsave.
  assert (u = inr tt /\ files w2 = []) as [-> Hw2].
  { rewrite Hw1 in Hrm. vm_compute in Hrm. injection Hrm as <- <-. now split. }
  exists w1, w2. split; [|split].
  - apply (save_then_cleanup Cleanup.exists_in_world Cleanup.remove_in_world
             [1; 2; 3] (IdInt 7) (IdInt 5) (lit "bin") world0 w1 w2 _ [] Hsave);
      [reflexivity| |exact Hrm].
    rewrite Hw1. vm_compute. reflexivity.
  - rewrite Hw1. vm_compute. reflexivity.
  - exact Hw2.
Defined.



(** A file outside [temp_files]: it exists, and it is left alone. *)
Lemma cleanup_temp_file_behaviour_witness :
  Cleanup.cleanup_temp_file Cleanup.exists_in_world Cleanup.remove_in_world
    (lit "/etc/passwd")
    (Cleanup.mkState
       (mkWorld [] (lit "20240101_120000") (fun _ => lit "123e4567") 0 (lit "/srv/app")
                [] [(lit "/etc/passwd", [114])] (fun _ => false)) [])
  = (inl (Cleanup.HTTP 500
            (Cleanup.ErrorDeletingFile (Cleanup.HTTP 404 Cleanup.NotFoundOrInvalidPath))),
     Cleanup.mkState
       (mkWorld [] (lit "20240101_120000") (fun _ => lit "123e4567") 0 (lit "/srv/app")
                [] [(lit "/etc/passwd", [114])] (fun _ => false)) []).
Proof.
  destruct (Cleanup.cleanup_temp_file _ _ _ _) as [r s'] eqn:H.
  destruct (cleanup_temp_file_behaviour _ _ _ _ _ _ H)
    as [(-> & ->)|(_ & (k & name & Hshape & _) & _)]; [reflexivity|].
  vm_compute in Hshape. discriminate.
Defined.

(* ===================================================================== *)
(** ** Validation and detection together *)
(* ===================================================================== *)

(** X15.  [process_document] decodes the payload strictly and
    [detect_file_type] decodes it again, leniently.  The two agree: a payload
    that validates has no [data:] prefix and decodes leniently to the same
    bytes, so the detector never takes its error path there and judges, by
    signature and then by text, the very bytes that are saved. *)
Theorem validated_payload_detection (payload : str) (decoded_data : bytes) (w : World) :
  b64decode payload true = inr decoded_data ->
  b64decode payload false = inr decoded_data
  /\ startswith payload (lit "data:") = false
  /\ result (detect_file_type payload) w =
     match find (fun item => startswith decoded_data (fst item))
             (dict_items file_signatures) with
     | Some (_, v) => inr v
     | None =>
         inr (if (4 <=? List.length decoded_data)%nat
              then first_match text_rules (utf8_decode_ignore (firstn 100 decoded_data))
                     (lit "application/octet-stream", lit "bin")
              else (lit "application/octet-stream", lit "bin"))
     end.
Proof.
  intros H. split; [exact (b64decode_strict_lenient _ _ H)|].
  split; [exact (b64decode_strict_no_data_prefix _ _ H)|].
  exact (detect_file_type_validated _ _ w H).
Qed.

Lemma validated_payload_detection_witness :
  b64decode (lit "JVBERi0xLjQ=") false = inr [37; 80; 68; 70; 45; 49; 46; 52]
  /\ result (detect_file_type (lit "JVBERi0xLjQ=")) world0
     = inr (lit "application/pdf", lit "pdf").
Proof.
  destruct (validated_payload_detection (lit "JVBERi0xLjQ=")
              [37; 80; 68; 70; 45; 49; 46; 52] world0 eq_refl) as (H1 & _ & H3).
  split; [exact H1|exact H3].
Defined.





(** X17.  What lies behind the first hundred bytes is never read as text:
    when the decoder keeps nothing of the first hundred bytes, the result is
    the generic binary type, whatever follows - a [{] in position 100
    included. *)
Theorem nothing_in_first_hundred_bytes (base64_data : str) (decoded_data : bytes)
    (w : World) :
  startswith base64_data (lit "data:") = false ->
  b64decode base64_data false = inr decoded_data ->
  matches_signature decoded_data = false ->
  utf8_decode_ignore (firstn 100 decoded_data) = [] ->
  result (detect_file_type base64_data) w = inr (lit "application/octet-stream", lit "bin").
Proof.
  intros Hdata Hdec Hsig Htext.
  rewrite (detect_file_type_text_stage _ _ _ Hdata Hdec Hsig), Htext.
  now destruct (4 <=? List.length decoded_data)%nat.
Qed.

(** A hundred bytes [0x80] and then [{"a":1}]. *)
Lemma nothing_in_first_hundred_bytes_witness :
  result (detect_file_type (List.concat (repeat (lit "gICA") 33) ++ lit "gHsiYSI6MX0=")) world0
  = inr (lit "application/octet-stream", lit "bin").
Proof.
  apply (nothing_in_first_hundred_bytes (List.concat (repeat (lit "gICA") 33) ++ lit "gHsiYSI6MX0=")
           (repeat 128 100 ++ [123; 34; 97; 34; 58; 49; 125]) world0);
    vm_compute; reflexivity.
Defined.
